(** * lmsg: the prompt pipeline of [lmsg/cli.py], and the output guard of lmsp

    A shallow embedding of the command-line client.  Python values that come
    out of [json.loads] are a small inductive type, every function of
    [lmsg/cli.py] is a computation in a state-and-exception monad whose state
    is the chronological trace of the observable calls ([subprocess.run],
    [requests.get], [requests.post], [print]), and the outside world (the
    [lms] tool, the HTTP server, standard input) is a record of oracles.

    Strings are Rocq strings read as sequences of code points below 256; on
    that range [isspace] and [lower] are the ones of Python's [str]. *)

From Stdlib Require Import String Ascii List ZArith NArith Lia Bool PrimFloat DecimalString.
Import ListNotations.
Local Open Scope list_scope.
Local Open Scope string_scope.
#[local] Set Warnings "-inexact-float".

(** ** Python [str] operations *)

Module PyStr.

(** [str.isspace] for one character. *)
Definition isspace (c : ascii) : bool :=
  let n := N_of_ascii c in
  (((9 <=? n) && (n <=? 13)) || ((28 <=? n) && (n <=? 32))
   || (n =? 133) || (n =? 160))%N.

(** [str.lower] for one character. *)
Definition lower_char (c : ascii) : ascii :=
  let n := N_of_ascii c in
  if (((65 <=? n) && (n <=? 90))
      || ((192 <=? n) && (n <=? 222) && negb (n =? 215)))%N
  then ascii_of_N (n + 32) else c.

Fixpoint lower (s : string) : string :=
  match s with
  | EmptyString => EmptyString
  | String c s' => String (lower_char c) (lower s')
  end.

(** [sub in s] *)
Fixpoint contains (sub s : string) : bool :=
  String.prefix sub s ||
  match s with
  | EmptyString => false
  | String _ s' => contains sub s'
  end.

Fixpoint lstrip (s : string) : string :=
  match s with
  | EmptyString => EmptyString
  | String c s' => if isspace c then lstrip s' else s
  end.

Fixpoint rstrip (s : string) : string :=
  match s with
  | EmptyString => EmptyString
  | String c s' =>
      match rstrip s' with
      | EmptyString => if isspace c then EmptyString else String c EmptyString
      | r => String c r
      end
  end.

(** [s.strip()] *)
Definition strip (s : string) : string := rstrip (lstrip s).

(** [s.split(sep)] for a one-character separator: never empty. *)
Fixpoint split_on (sep : ascii) (s : string) : list string :=
  match s with
  | EmptyString => [EmptyString]
  | String c s' =>
      if Ascii.eqb c sep then EmptyString :: split_on sep s'
      else match split_on sep s' with
           | w :: ws => String c w :: ws
           | [] => [String c EmptyString]
           end
  end.

(** [s.split()]: the maximal runs of non-whitespace characters. *)
Fixpoint split_ws (s : string) : list string :=
  match s with
  | EmptyString => []
  | String c s' =>
      if isspace c then split_ws s'
      else match s' with
           | EmptyString => [String c EmptyString]
           | String c' _ =>
               if isspace c' then String c EmptyString :: split_ws s'
               else match split_ws s' with
                    | w :: ws => String c w :: ws
                    | [] => [String c EmptyString]
                    end
           end
  end.

(** Truth value of a [str]. *)
Definition nonempty (s : string) : bool :=
  match s with EmptyString => false | _ => true end.

(** The decimal digits of an [int]: what [str(n)] and an f-string give
    for an [int] that [fits] below.  For a longer one CPython 3.11 and
    later raise [ValueError] instead; that case is outside this function,
    and a statement that a call formatting an [int] returns assumes
    [fits]. *)
Definition of_int (z : Z) : string := NilZero.string_of_int (Z.to_int z).

(** At most 4300 decimal digits, the default [sys.int_max_str_digits]. *)
Definition fits (z : Z) : bool := (Z.abs z <? 10 ^ 4300)%Z.

Definition newline : ascii := ascii_of_nat 10.
Definition nl : string := String newline EmptyString.
Definition dquote : string := String (ascii_of_nat 34) EmptyString.

End PyStr.

(** ** Python values *)

(** What [json.loads] can return, which is also what a [dict] of this
    program can hold.  A [dict] is an association list searched from the
    front. *)
#[local] Set Warnings "-register-all".
Inductive pyval : Type :=
| PNone
| PBool (b : bool)
| PInt (z : Z)
| PFloat (f : float)
| PStr (s : string)
| PList (l : list pyval)
| PDict (kv : list (string * pyval)).

(** The subclasses of [Exception] the program can meet; [str(e)] is the
    message.  [ConnectionError] and [Timeout] are those of
    [requests.exceptions]; a [ConnectTimeout], which inherits from both, is
    caught by the first handler and so counts as a [ConnectionError]. *)
Inductive exn : Type :=
| ConnectionError (msg : string)
| Timeout (msg : string)
| JSONDecodeError (msg : string)
| KeyError (msg : string)
| IndexError (msg : string)
| TypeError (msg : string)
| AttributeError (msg : string)
| OtherError (msg : string).

Definition str_exn (e : exn) : string :=
  match e with
  | ConnectionError m | Timeout m | JSONDecodeError m | KeyError m
  | IndexError m | TypeError m | AttributeError m | OtherError m => m
  end.

(** The result of a call that may raise. *)
Inductive reply (A : Type) : Type :=
| Reply (a : A)
| Fails (e : exn).
Arguments Reply {A} a.
Arguments Fails {A} e.

Module Py.

Definition type_name (v : pyval) : string :=
  match v with
  | PNone => "NoneType"
  | PBool _ => "bool"
  | PInt _ => "int"
  | PFloat _ => "float"
  | PStr _ => "str"
  | PList _ => "list"
  | PDict _ => "dict"
  end.

(** [bool(v)] *)
Definition truthy (v : pyval) : bool :=
  match v with
  | PNone => false
  | PBool b => b
  | PInt z => negb (z =? 0)%Z
  | PFloat f => negb (PrimFloat.eqb f 0%float)
  | PStr s => PyStr.nonempty s
  | PList l => match l with [] => false | _ => true end
  | PDict kv => match kv with [] => false | _ => true end
  end.

(** [d[key]] on the association list of a [dict]. *)
Fixpoint lookup (key : string) (kv : list (string * pyval)) : option pyval :=
  match kv with
  | [] => None
  | (k, v) :: rest => if String.eqb k key then Some v else lookup key rest
  end.

(** [len(v)] *)
Definition len (v : pyval) : reply nat :=
  match v with
  | PStr s => Reply (String.length s)
  | PList l => Reply (List.length l)
  | PDict kv => Reply (List.length kv)
  | _ => Fails (TypeError ("object of type '" ++ type_name v ++ "' has no len()"))
  end.

(** [v.get(key, default)]: only a [dict] has the method. *)
Definition get (v : pyval) (key : string) (default : pyval) : reply pyval :=
  match v with
  | PDict kv => Reply (match lookup key kv with Some x => x | None => default end)
  | _ => Fails (AttributeError ("'" ++ type_name v ++ "' object has no attribute 'get'"))
  end.

(** [v[key]] for a [str] key. *)
Definition item (v : pyval) (key : string) : reply pyval :=
  match v with
  | PDict kv =>
      match lookup key kv with
      | Some x => Reply x
      | None => Fails (KeyError ("'" ++ key ++ "'"))
      end
  | PList _ => Fails (TypeError "list indices must be integers or slices, not str")
  | PStr _ => Fails (TypeError "string indices must be integers, not 'str'")
  | _ => Fails (TypeError ("'" ++ type_name v ++ "' object is not subscriptable"))
  end.

(** [v[0]]; the keys of a decoded [dict] are strings, so [0] is never one. *)
Definition item0 (v : pyval) : reply pyval :=
  match v with
  | PList (x :: _) => Reply x
  | PList [] => Fails (IndexError "list index out of range")
  | PStr (String c _) => Reply (PStr (String c EmptyString))
  | PStr EmptyString => Fails (IndexError "string index out of range")
  | PDict _ => Fails (KeyError "0")
  | _ => Fails (TypeError ("'" ++ type_name v ++ "' object is not subscriptable"))
  end.

Fixpoint chars (s : string) : list pyval :=
  match s with
  | EmptyString => []
  | String c s' => PStr (String c EmptyString) :: chars s'
  end.

(** The elements [for x in v] runs over. *)
Definition iter (v : pyval) : reply (list pyval) :=
  match v with
  | PList l => Reply l
  | PStr s => Reply (chars s)
  | PDict kv => Reply (map (fun p => PStr (fst p)) kv)
  | _ => Fails (TypeError ("'" ++ type_name v ++ "' object is not iterable"))
  end.

(** [v == s] for a [str] [s]. *)
Definition eq_str (v : pyval) (s : string) : bool :=
  match v with
  | PStr t => String.eqb t s
  | _ => false
  end.

(** [xs[0]] on a list of strings. *)
Definition head (xs : list string) : reply string :=
  match xs with
  | x :: _ => Reply x
  | [] => Fails (IndexError "list index out of range")
  end.

End Py.

(** ** Wire records, the outside world and the observable calls *)

Record message : Type := { role : string; content : string }.

(** The [payload] dict of [send_prompt]. *)
Record payload : Type := {
  model : pyval;
  messages : list message;
  temperature : float;
  max_tokens : Z;
  stream : bool
}.

(** [subprocess.CompletedProcess] with [capture_output=True, text=True]. *)
Record completed : Type := { returncode : Z; stdout : string; stderr : string }.

(** [requests.Response], as far as the program reads it. *)
Record response : Type := { status_code : Z; text : string }.

(** A printed line: the literal text of an f-string and the values
    interpolated into it. *)
Inductive piece : Type :=
| Lit (s : string)
| Fmt (v : pyval).

(** One observable call, with the keyword arguments that matter:
    [shell] and [timeout] of [subprocess.run] (defaults [False] and [None]),
    [headers] and [timeout] of [requests]. *)
Inductive event : Type :=
| Run (argv : list string) (shell : bool) (timeout : option Z)
| Get (url : string) (timeout : option Z)
| Post (url : string) (json : payload)
       (headers : option (list (string * string))) (timeout : option Z)
| Print (to_stderr : bool) (line : list piece)
| PrintHelp.

Definition trace : Type := list event.

(** The outside world answers each call; its answer may depend on how many
    calls were observed before. *)
Record world : Type := {
  lms : nat -> list string -> reply completed;
  http_get : nat -> string -> reply response;
  http_post : nat -> string -> payload -> reply response;
  stdin_isatty : bool;
  stdin_read : string
}.

(** ** The monad: a trace, an exception or [sys.exit] *)

Inductive outcome (A : Type) : Type :=
| Ret (a : A)
| Raise (e : exn)
| Exit (code : Z).
Arguments Ret {A} a.
Arguments Raise {A} e.
Arguments Exit {A} code.

Definition M (A : Type) : Type := trace -> outcome A * trace.

Definition ret {A} (a : A) : M A := fun t => (Ret a, t).

Definition bind {A B} (m : M A) (k : A -> M B) : M B :=
  fun t =>
    match m t with
    | (Ret a, t') => k a t'
    | (Raise e, t') => (Raise e, t')
    | (Exit c, t') => (Exit c, t')
    end.

Definition raise {A} (e : exn) : M A := fun t => (Raise e, t).

(** [sys.exit(code)]: [SystemExit] is no [Exception], no handler below
    catches it. *)
Definition sys_exit {A} (code : Z) : M A := fun t => (Exit code, t).

(** [try: body / except Exception as e: handler e] *)
Definition try_except {A} (body : M A) (handler : exn -> M A) : M A :=
  fun t =>
    match body t with
    | (Raise e, t') => handler e t'
    | r => r
    end.

Definition lift {A} (r : reply A) : M A :=
  match r with
  | Reply a => ret a
  | Fails e => raise e
  end.

(** Sequencing of calls that may raise but touch nothing outside. *)
Definition and_then {A B} (r : reply A) (k : A -> reply B) : reply B :=
  match r with
  | Reply a => k a
  | Fails e => Fails e
  end.

Definition emit (e : event) : M unit := fun t => (Ret tt, (t ++ [e])%list).

Notation "x <- m ;; k" := (bind m (fun x => k))
  (at level 61, m at next level, right associativity).
Notation "m ;;; k" := (bind m (fun _ => k))
  (at level 61, right associativity).

(** ** [lmsg/cli.py] *)

(** The namespace [argparse] hands to [main]. *)
Module Args.
Inductive pipe_mode : Type := replace | append | prepend.

Record t : Type := {
  prompt : option string;
  model : option string;
  port : Z;
  mode : pipe_mode;
  list_models : bool;
  check_server : bool;
  verbose : bool
}.

Definition is_replace (m : pipe_mode) : bool :=
  match m with replace => true | _ => false end.
Definition is_append (m : pipe_mode) : bool :=
  match m with append => true | _ => false end.
Definition is_prepend (m : pipe_mode) : bool :=
  match m with prepend => true | _ => false end.
End Args.

(** Truth value and f-string rendering of an [Optional[str]]. *)
Definition opt_truthy (o : option string) : bool :=
  match o with Some s => PyStr.nonempty s | None => false end.

Definition opt_format (o : option string) : string :=
  match o with Some s => s | None => "None" end.

Definition no_models_error : string :=
  "Error: No models loaded. Use 'lms load <model>' to load a model.".

Definition connection_error : string :=
  "Error: Could not connect to LM Studio server. Make sure it's running with 'lms server start'".

Definition not_running : pyval := PDict [("running", PBool false)].

(** The calls to [logger] write to the log only and are left out, except
    where evaluating their argument can raise. *)
Section Lmsg.

(** [json.loads]; [None] when it raises [JSONDecodeError]. *)
Variable json_loads : string -> option pyval.
Variable w : world.

(** [subprocess.run(argv, capture_output=True, text=True)]: the program
    passes neither [shell] nor [timeout]. *)
Definition subprocess_run (argv : list string) : M completed :=
  fun t =>
    match lms w (List.length t) argv with
    | Reply c => (Ret c, (t ++ [Run argv false None])%list)
    | Fails e => (Raise e, (t ++ [Run argv false None])%list)
    end.

(** [requests.get(url, timeout=timeout)] *)
Definition requests_get (url : string) (timeout : Z) : M response :=
  fun t =>
    match http_get w (List.length t) url with
    | Reply r => (Ret r, (t ++ [Get url (Some timeout)])%list)
    | Fails e => (Raise e, (t ++ [Get url (Some timeout)])%list)
    end.

(** [requests.post(url, json=json, timeout=timeout)]: no [headers]. *)
Definition requests_post (url : string) (json : payload) (timeout : Z) : M response :=
  fun t =>
    match http_post w (List.length t) url json with
    | Reply r => (Ret r, (t ++ [Post url json None (Some timeout)])%list)
    | Fails e => (Raise e, (t ++ [Post url json None (Some timeout)])%list)
    end.

(** [json.loads(s)]: the decoded value, or [JSONDecodeError].  The text
    of the exception depends on the input in Python; a fixed text stands
    for it here, and no statement below depends on it. *)
Definition loads (s : string) : M pyval :=
  match json_loads s with
  | Some v => ret v
  | None => raise (JSONDecodeError "Expecting value")
  end.

(** The loop of the plain-text fallback: [Some] is its early [return]. *)
Fixpoint first_model (lines : list string) : M (option pyval) :=
  match lines with
  | [] => ret None
  | line :: rest =>
      if PyStr.nonempty (PyStr.strip line) then
        identifier <- lift (Py.head (PyStr.split_ws line)) ;;
        ret (Some (PList [PDict [("identifier", PStr identifier)]]))
      else first_model rest
  end.

Definition get_loaded_models : M pyval :=
  try_except
    (result <- subprocess_run ["lms"; "ps"; "--json"] ;;
     if (returncode result =? 0)%Z && PyStr.nonempty (stdout result) then
       models <- loads (stdout result) ;;
       _ <- lift (Py.len models) ;;
       ret models
     else
       result <- subprocess_run ["lms"; "ps"] ;;
       found <- (if (returncode result =? 0)%Z then
                   let lines := PyStr.split_on PyStr.newline (PyStr.strip (stdout result)) in
                   if (1 <? List.length lines)%nat then first_model (tl lines)
                   else ret None
                 else ret None) ;;
       match found with
       | Some models => ret models
       | None => ret (PList [])
       end)
    (fun _ => ret (PList [])).

Definition get_server_status : M pyval :=
  try_except
    (result <- subprocess_run ["lms"; "server"; "status"; "--json"] ;;
     if (returncode result =? 0)%Z && PyStr.nonempty (stdout result) then
       loads (stdout result)
     else
       found <- try_except
                  (response <- requests_get "http://localhost:1234/v1/models" 2 ;;
                   if (status_code response =? 200)%Z
                   then ret (Some (PDict [("running", PBool true); ("port", PInt 1234)]))
                   else ret None)
                  (fun _ => ret None) ;;
       match found with
       | Some status => ret status
       | None => ret not_running
       end)
    (fun _ => ret not_running).

Definition list_available_models : M (list string) :=
  try_except
    (result <- subprocess_run ["lms"; "ls"] ;;
     if (returncode result =? 0)%Z && PyStr.nonempty (stdout result) then
       let models := PyStr.split_on PyStr.newline (PyStr.strip (stdout result)) in
       ret (map PyStr.strip (filter (fun m => PyStr.nonempty (PyStr.strip m)) models))
     else ret [])
    (fun _ => ret []).

(** The loop over [loaded_models]: [true] is its [return True]. *)
Fixpoint already_loaded (model_name : string) (loaded_models : list pyval) : M bool :=
  match loaded_models with
  | [] => ret false
  | loaded :: rest =>
      identifier <- lift (Py.get loaded "identifier" PNone) ;;
      if Py.eq_str identifier model_name then ret true
      else
        name <- lift (Py.get loaded "name" PNone) ;;
        if Py.eq_str name model_name then ret true
        else already_loaded model_name rest
  end.

Fixpoint print_available (available : list string) : M unit :=
  match available with
  | [] => ret tt
  | model :: rest =>
      emit (Print true [Lit ("  - " ++ model)]) ;;; print_available rest
  end.

(** The marker test on the error text of a failed load. *)
Definition unknown_model (err : string) : bool :=
  PyStr.contains "not found" (PyStr.lower err)
  || PyStr.contains "does not exist" (PyStr.lower err).

(** The [try] block of [ensure_model_loaded]. *)
Definition load_model (model_name : string) : M bool :=
  try_except
    (result <- subprocess_run ["lms"; "load"; model_name] ;;
     if (returncode result =? 0)%Z then ret true
     else
       (if unknown_model (stderr result) then
          available <- list_available_models ;;
          match available with
          | [] => ret tt
          | _ :: _ =>
              emit (Print true [Lit (PyStr.nl ++ "Available models:")]) ;;;
              print_available available ;;;
              emit (Print true
                      [Lit (PyStr.nl ++ "Use 'lms load <model>' to load one of these models")])
          end
        else ret tt) ;;;
       ret false)
    (fun _ => ret false).

Definition ensure_model_loaded (model_name : string) : M bool :=
  loaded_models <- get_loaded_models ;;
  items <- lift (Py.iter loaded_models) ;;
  found <- already_loaded model_name items ;;
  if found then ret true else load_model model_name.

Definition build_payload (model : pyval) (prompt : string) : payload :=
  {| model := model;
     messages := [ {| role := "user"; content := prompt |} ];
     temperature := 0.7%float;
     max_tokens := -1;
     stream := false |}.

(** [models[0].get("identifier", models[0].get("name", ""))] after the
    emptiness test; [None] is the early return of the error string. *)
Definition default_model : M (option pyval) :=
  models <- get_loaded_models ;;
  if negb (Py.truthy models) then ret None
  else
    first <- lift (Py.item0 models) ;;
    name <- lift (Py.get first "name" (PStr "")) ;;
    identifier <- lift (Py.get first "identifier" name) ;;
    ret (Some identifier).

(** [data['choices'][0]['message']['content']] *)
Definition message_content (data : pyval) : reply pyval :=
  and_then (Py.item data "choices") (fun choices =>
  and_then (Py.item0 choices) (fun choice =>
  and_then (Py.item choice "message") (fun msg =>
  Py.item msg "content"))).

(** The [try] block of [send_prompt] with its three handlers;
    [response.json()] decodes the body. *)
Definition post_prompt (url : string) (json : payload) : M pyval :=
  try_except
    (response <- requests_post url json 60 ;;
     if (status_code response =? 200)%Z then
       data <- loads (text response) ;;
       lift (message_content data)
     else
       ret (PStr ("Error: Server returned status "
                  ++ PyStr.of_int (status_code response) ++ ": " ++ text response)))
    (fun e =>
       match e with
       | ConnectionError _ => ret (PStr connection_error)
       | Timeout _ => ret (PStr "Error: Request timed out")
       | _ => ret (PStr ("Error: " ++ str_exn e))
       end).

Definition send_prompt (prompt : string) (model : option string) (port : Z) : M pyval :=
  let url := "http://localhost:" ++ PyStr.of_int port ++ "/v1/chat/completions" in
  resolved <- (if opt_truthy model then ret (Some (PStr (opt_format model)))
               else default_model) ;;
  match resolved with
  | None => ret (PStr no_models_error)
  | Some model' => post_prompt url (build_payload model' prompt)
  end.

Fixpoint print_loaded (models : list pyval) : M unit :=
  match models with
  | [] => ret tt
  | model :: rest =>
      name <- lift (Py.get model "name" (PStr "Unknown")) ;;
      identifier <- lift (Py.get model "identifier" name) ;;
      emit (Print false [Lit "  - "; Fmt identifier]) ;;;
      print_loaded rest
  end.

(** The [if piped_content:] chain of [main]. *)
Definition final_prompt (prompt : option string) (mode : Args.pipe_mode)
           (piped_content : option string) : option string :=
  if opt_truthy piped_content then
    if Args.is_replace mode && negb (opt_truthy prompt) then piped_content
    else if Args.is_append mode && opt_truthy prompt then
      Some (opt_format prompt ++ PyStr.nl ++ PyStr.nl ++ opt_format piped_content)
    else if Args.is_prepend mode && opt_truthy prompt then
      Some (opt_format piped_content ++ PyStr.nl ++ PyStr.nl ++ opt_format prompt)
    else if opt_truthy prompt then
      Some (opt_format prompt ++ PyStr.nl ++ PyStr.nl ++ opt_format piped_content)
    else piped_content
  else prompt.

(** [main] from the check of the server on, with the prompt settled. *)
Definition main_send (args : Args.t) (prompt : string) : M unit :=
  status <- get_server_status ;;
  running <- lift (Py.get status "running" PNone) ;;
  if negb (Py.truthy running) then
    emit (Print true
            [Lit "Error: LM Studio server is not running. Start it with 'lms server start'"]) ;;;
    sys_exit 1
  else
    (if opt_truthy (Args.model args) then
       ok <- ensure_model_loaded (opt_format (Args.model args)) ;;
       if negb ok then
         emit (Print true
                 [Lit ("Error: Failed to load model '" ++ opt_format (Args.model args) ++ "'")]) ;;;
         sys_exit 1
       else ret tt
     else ret tt) ;;;
    response <- send_prompt prompt (Args.model args) (Args.port args) ;;
    emit (Print false [Fmt response]).

Definition main (args : Args.t) : M unit :=
  if Args.list_models args then
    models <- get_loaded_models ;;
    if Py.truthy models then
      emit (Print false [Lit "Loaded models:"]) ;;;
      items <- lift (Py.iter models) ;;
      print_loaded items
    else emit (Print false [Lit "No models currently loaded"])
  else if Args.check_server args then
    status <- get_server_status ;;
    running <- lift (Py.get status "running" PNone) ;;
    if Py.truthy running then
      port <- lift (Py.get status "port" (PInt (Args.port args))) ;;
      emit (Print false [Lit "LM Studio server is running on port "; Fmt port])
    else emit (Print false [Lit "LM Studio server is not running"])
  else
    let piped_content :=
      if stdin_isatty w then None else Some (PyStr.strip (stdin_read w)) in
    let final := final_prompt (Args.prompt args) (Args.mode args) piped_content in
    if negb (opt_truthy final) then emit PrintHelp
    else main_send args (opt_format final).

End Lmsg.

(** ** The wire contract of the specification, as checks on events *)

Module Spec.

(** The timeout, in seconds, the interface table gives each
    process-manager operation. *)
Definition operation_timeout (argv : list string) : Z :=
  match argv with
  | [_; cmd; _] => if String.eqb cmd "load" then 120 else 30
  | [_; cmd; sub; _] =>
      if String.eqb cmd "server" && String.eqb sub "status" then 2 else 30
  | _ => 30
  end.

(** No shell, and the operation's timeout. *)
Definition invocation_ok (e : event) : bool :=
  match e with
  | Run argv shell (Some s) => negb shell && (s =? operation_timeout argv)%Z
  | Run _ _ None => false
  | _ => true
  end.

(** [Content-Type: application/json; charset=utf-8] among the headers. *)
Definition content_type_ok (e : event) : bool :=
  match e with
  | Post _ _ (Some hs) _ =>
      existsb (fun h => String.eqb (fst h) "Content-Type"
                        && String.eqb (snd h) "application/json; charset=utf-8") hs
  | Post _ _ None _ => false
  | _ => true
  end.

(** The shape of the payload, with [stream] true on the wire. *)
Definition payload_ok (prompt : string) (e : event) : bool :=
  match e with
  | Post _ p _ _ =>
      match model p, messages p with
      | PStr _, [m] =>
          String.eqb (role m) "user" && String.eqb (content m) prompt
          && PrimFloat.eqb (temperature p) 0.7%float
          && (max_tokens p =? -1)%Z
          && stream p
      | _, _ => false
      end
  | _ => true
  end.

(** The plain-text parse in the specification's words: skip the header
    line, then the first whitespace-delimited token of the first
    remaining non-blank line is the identifier of one record. *)
Definition plain_text_models (out : string) : pyval :=
  match PyStr.split_on PyStr.newline (PyStr.strip out) with
  | _header :: rows =>
      match find (fun line => PyStr.nonempty (PyStr.strip line)) rows with
      | Some line =>
          match PyStr.split_ws line with
          | token :: _ => PList [PDict [("identifier", PStr token)]]
          | [] => PList []
          end
      | None => PList []
      end
  | [] => PList []
  end.

End Spec.

(** ** What the code does instead, as predicates on events *)

(** An argv list run without a shell and without a timeout. *)
Definition plain_run (e : event) : Prop :=
  match e with
  | Run _ shell timeout => shell = false /\ timeout = None
  | _ => True
  end.

(** A post that passes no [headers] and a 60 second timeout. *)
Definition bare_post (e : event) : Prop :=
  match e with
  | Post _ _ headers timeout => headers = None /\ timeout = Some 60%Z
  | _ => True
  end.

(** A post of the payload [send_prompt] builds for [prompt]; its model is
    the caller's when there is one. *)
Definition posts_prompt (prompt : string) (given : option string) (e : event) : Prop :=
  match e with
  | Post _ p _ _ =>
      messages p = [ {| role := "user"; content := prompt |} ]
      /\ temperature p = 0.7%float
      /\ max_tokens p = (-1)%Z
      /\ stream p = false
      /\ (opt_truthy given = true -> model p = PStr (opt_format given))
  | _ => True
  end.

(** One of the two listing queries. *)
Definition listing_query (e : event) : Prop :=
  e = Run ["lms"; "ps"; "--json"] false None \/ e = Run ["lms"; "ps"] false None.

(** ** Concrete worlds *)

Module Demo.

Definition q (s : string) : string := PyStr.dquote ++ s ++ PyStr.dquote.

(** [[{"identifier": "llama-3.2-1b-instruct"}]] *)
Definition one_model : string :=
  "[{" ++ q "identifier" ++ ": " ++ q "llama-3.2-1b-instruct" ++ "}]".

(** [{"running": true, "port": 1234}] *)
Definition running : string :=
  "{" ++ q "running" ++ ": true, " ++ q "port" ++ ": 1234}".

(** [{"choices": [{"message": {"content": "Hello! How can I help you?"}}]}] *)
Definition answer : string :=
  "{" ++ q "choices" ++ ": [{" ++ q "message" ++ ": {" ++ q "content" ++ ": "
      ++ q "Hello! How can I help you?" ++ "}}]}".

(** [json.loads] on the texts the worlds below produce. *)
Definition loads (s : string) : option pyval :=
  if String.eqb s one_model then
    Some (PList [PDict [("identifier", PStr "llama-3.2-1b-instruct")]])
  else if String.eqb s running then
    Some (PDict [("running", PBool true); ("port", PInt 1234)])
  else if String.eqb s answer then
    Some (PDict [("choices",
                  PList [PDict [("message",
                                 PDict [("content", PStr "Hello! How can I help you?")])]])])
  else if String.eqb s "[]" then Some (PList [])
  else if String.eqb s "[1]" then Some (PList [PInt 1])
  else None.

Definition exited (code : Z) (out err : string) : reply completed :=
  Reply {| returncode := code; stdout := out; stderr := err |}.

(** The [lms] tool, by what each of its commands answers. *)
Definition tool (ps_json ps load ls status : reply completed)
  : nat -> list string -> reply completed :=
  fun _ argv =>
    match argv with
    | [_; cmd] =>
        if String.eqb cmd "ps" then ps
        else if String.eqb cmd "ls" then ls
        else Fails (OtherError "unknown command")
    | [_; cmd; arg] =>
        if String.eqb cmd "ps" && String.eqb arg "--json" then ps_json
        else if String.eqb cmd "load" then load
        else Fails (OtherError "unknown command")
    | [_; _; _; _] => status
    | _ => Fails (OtherError "unknown command")
    end.

Definition table : string :=
  "Model ID" ++ PyStr.nl ++ "llama-3.2-1b-instruct   4.2 GB" ++ PyStr.nl.

Definition server (body : string) : nat -> string -> payload -> reply response :=
  fun _ _ _ => Reply {| status_code := 200; text := body |}.

Definition mk (lms : nat -> list string -> reply completed) : world :=
  {| lms := lms;
     http_get := fun _ _ => Reply {| status_code := 200; text := "{}" |};
     http_post := server answer;
     stdin_isatty := false;
     stdin_read := "Document content here" ++ PyStr.nl |}.

(** One model loaded, everything works. *)
Definition ready : world :=
  mk (tool (exited 0 one_model "") (exited 0 table "")
           (exited 0 "" "") (exited 0 "llama-3.2-1b-instruct" "")
           (exited 0 running "")).

(** Nothing loaded; loading fails because the model is unknown. *)
Definition unloaded : world :=
  mk (tool (exited 0 "[]" "") (exited 0 "Model ID" "")
           (exited 1 "" "Error: Model NOT FOUND")
           (exited 0 ("model1" ++ PyStr.nl ++ "model2") "")
           (exited 0 running "")).

(** The structured query fails, the plain one prints a table. *)
Definition plain : world :=
  mk (tool (exited 1 "" "") (exited 0 table "")
           (exited 0 "" "") (exited 0 "" "") (exited 0 running "")).

(** The structured query prints something that is no JSON. *)
Definition garbled : world :=
  mk (tool (exited 0 "lms: warning" "") (exited 0 table "")
           (exited 0 "" "") (exited 0 "" "") (exited 0 running "")).

(** The structured query prints a JSON array that holds no record. *)
Definition odd : world :=
  mk (tool (exited 0 "[1]" "") (exited 0 table "")
           (exited 0 "" "") (exited 0 "" "") (exited 0 running "")).

(** The server refuses the connection. *)
Definition refused : world :=
  {| lms := lms ready;
     http_get := fun _ _ => Fails (ConnectionError "Connection refused");
     http_post := fun _ _ _ => Fails (ConnectionError "Connection refused");
     stdin_isatty := true;
     stdin_read := "" |}.

(** Nothing loaded, and the load succeeds. *)
Definition loadable : world :=
  mk (tool (exited 0 "[]" "") (exited 0 "Model ID" "")
           (exited 0 "" "") (exited 0 ("model1" ++ PyStr.nl ++ "model2" ++ PyStr.nl ++ "model3") "")
           (exited 0 running "")).

(** The tool exits with 1 whatever it is asked, and no server listens. *)
Definition down : world :=
  {| lms := fun _ _ => exited 1 "" "";
     http_get := fun _ _ => Fails (OtherError "Connection refused");
     http_post := fun _ _ _ => Fails (OtherError "Connection refused");
     stdin_isatty := true;
     stdin_read := "" |}.

(** The [lms] executable is missing, yet a server listens on port 1234. *)
Definition absent : world :=
  {| lms := fun _ _ => Fails (OtherError "[Errno 2] No such file or directory: 'lms'");
     http_get := fun _ _ => Reply {| status_code := 200; text := "{}" |};
     http_post := server answer;
     stdin_isatty := true;
     stdin_read := "" |}.

(** The tool knows nothing (it exits with 1), yet a server listens. *)
Definition probed : world :=
  {| lms := fun _ _ => exited 1 "" "";
     http_get := fun _ _ => Reply {| status_code := 200; text := "{}" |};
     http_post := server answer;
     stdin_isatty := true;
     stdin_read := "" |}.

(** [json.loads] on the text ["5"]. *)
Definition loads_number (s : string) : option pyval :=
  if String.eqb s "5" then Some (PInt 5) else None.

(** The structured listing prints the JSON number 5. *)
Definition scalar : world :=
  mk (tool (exited 0 "5" "") (exited 0 table "")
           (exited 0 "" "") (exited 0 "" "") (exited 0 running "")).

(** [lmsg -m not-a-real-model "Hello"] on a terminal. *)
Definition args_model : Args.t :=
  {| Args.prompt := Some "Hello";
     Args.model := Some "not-a-real-model";
     Args.port := 8080;
     Args.mode := Args.replace;
     Args.list_models := false;
     Args.check_server := false;
     Args.verbose := false |}.

(** [lmsg -m llama-3.2-1b-instruct "Hello"] on a terminal. *)
Definition args_llama : Args.t :=
  {| Args.prompt := Some "Hello";
     Args.model := Some "llama-3.2-1b-instruct";
     Args.port := 1234;
     Args.mode := Args.replace;
     Args.list_models := false;
     Args.check_server := false;
     Args.verbose := false |}.

(** [lmsg] with no argument at all. *)
Definition args_none : Args.t :=
  {| Args.prompt := None;
     Args.model := None;
     Args.port := 1234;
     Args.mode := Args.replace;
     Args.list_models := false;
     Args.check_server := false;
     Args.verbose := false |}.

(** [[{"name": "Llama 3.2 1B"}]]: a record with no identifier. *)
Definition one_name : string := "[{" ++ q "name" ++ ": " ++ q "Llama 3.2 1B" ++ "}]".

Definition loads_named (s : string) : option pyval :=
  if String.eqb s one_name then Some (PList [PDict [("name", PStr "Llama 3.2 1B")]])
  else loads s.

Definition named : world :=
  mk (tool (exited 0 one_name "") (exited 0 table "")
           (exited 0 "" "") (exited 0 "" "") (exited 0 running "")).

(** [lmsg --list-models --check-server "Hello"] *)
Definition args_list : Args.t :=
  {| Args.prompt := Some "Hello";
     Args.model := Some "m";
     Args.port := 1234;
     Args.mode := Args.replace;
     Args.list_models := true;
     Args.check_server := true;
     Args.verbose := false |}.

Definition llama : string := "llama-3.2-1b-instruct".
Definition ps_json : event := Run ["lms"; "ps"; "--json"] false None.
Definition ps : event := Run ["lms"; "ps"] false None.

Definition args : Args.t :=
  {| Args.prompt := Some "Summarize this:";
     Args.model := None;
     Args.port := 1234;
     Args.mode := Args.replace;
     Args.list_models := false;
     Args.check_server := false;
     Args.verbose := false |}.

End Demo.

(** ** Outcomes of the prompt exchange *)

(** A result that is a string with the prefix [Error:]. *)
Definition is_error (v : pyval) : bool :=
  match v with
  | PStr s => String.prefix "Error:" s
  | _ => false
  end.

(** The server's answer to the post made at time [n] is a 200 whose body
    decodes and holds [v] at [choices[0].message.content]. *)
Definition answered (json_loads : string -> option pyval) (w : world)
           (n : nat) (url : string) (json : payload) (v : pyval) : Prop :=
  exists r data,
    http_post w n url json = Reply r
    /\ status_code r = 200%Z
    /\ json_loads (text r) = Some data
    /\ message_content data = Reply v.

(** The record answers to [name], by identifier or by display name. *)
Definition answers_to (name : string) (r : list (string * pyval)) : Prop :=
  Py.lookup "identifier" r = Some (PStr name) \/ Py.lookup "name" r = Some (PStr name).

(** What a failed load is: the call raised, or the tool exited non-zero. *)
Definition load_failed (r : reply completed) : Prop :=
  match r with
  | Reply c => returncode c <> 0%Z
  | Fails _ => True
  end.

(** Not the load command for [name]. *)
Definition not_load (name : string) (e : event) : Prop :=
  e <> Run ["lms"; "load"; name] false None.

(** A post whose one message is the user's [prompt]. *)
Definition sends (prompt : string) (e : event) : Prop :=
  match e with
  | Post _ p _ _ => messages p = [ {| role := "user"; content := prompt |} ]
  | _ => True
  end.

(** ** [lmsp]: the guard on terminal output

    [lmsp/__init__.py] re-exports [sanitize_terminal_output] from
    [lmsp/cli.py]; the sequences it strips are those of ECMA-48. *)

Module Lmsp.

(** A [str] as the sequence of its code points. *)
Definition text : Type := list N.

Definition ESC : N := 27.

(** The control characters: C0, DEL and C1. *)
Definition is_control (c : N) : bool :=
  ((c <? 32) || ((127 <=? c) && (c <=? 159)))%N.

Definition printable (c : N) : bool := negb (is_control c).

(** Tab, line feed and carriage return lay text out and move no cursor
    elsewhere. *)
Definition is_layout (c : N) : bool := ((c =? 9) || (c =? 10) || (c =? 13))%N.

Definition is_parameter (c : N) : bool := ((48 <=? c) && (c <=? 63))%N.
Definition is_intermediate (c : N) : bool := ((32 <=? c) && (c <=? 47))%N.
Definition is_final (c : N) : bool := ((64 <=? c) && (c <=? 126))%N.

(** The length of [intermediate* final] at the head of [l]. *)
Fixpoint tail_length (l : text) : option nat :=
  match l with
  | [] => None
  | c :: rest =>
      if is_intermediate c then option_map S (tail_length rest)
      else if is_final c then Some 1%nat
      else None
  end.

(** The length of [parameter* intermediate* final] at the head of [l]. *)
Fixpoint body_length (l : text) : option nat :=
  match l with
  | [] => None
  | c :: rest =>
      if is_parameter c then option_map S (body_length rest)
      else tail_length l
  end.

(** How many code points after an ESC belong to the escape sequence it
    starts: a control sequence [ESC [ ...], or one character of
    [@] to [_]. *)
Definition sequence_length (after : text) : option nat :=
  match after with
  | [] => None
  | c :: rest =>
      if (c =? 91)%N then option_map S (body_length rest)
      else if ((64 <=? c) && (c <=? 95))%N then Some 1%nat
      else None
  end.

(** Drop every escape sequence; [skip] counts what is left to drop of the
    sequence being read. *)
Fixpoint strip_sequences (skip : nat) (l : text) : text :=
  match l with
  | [] => []
  | c :: rest =>
      match skip with
      | S k => strip_sequences k rest
      | O =>
          if (c =? ESC)%N then
            match sequence_length rest with
            | Some n => strip_sequences n rest
            | None => c :: strip_sequences 0 rest
            end
          else c :: strip_sequences 0 rest
      end
  end.


Definition kept (c : N) : bool := printable c || is_layout c.

(** Modelled from the spec: [sanitize_terminal_output] of [lmsp/cli.py],
    a file that is not among the sources.  It strips the ANSI escape
    sequences from the text, then the control characters that remain,
    and leaves every other code point where it is. *)
Definition sanitize_terminal_output (s : text) : text :=
  filter kept (strip_sequences 0 s).


(** ESC [ 3 1 m red ESC [ 0 m BEL *)
Definition coloured : text := [27; 91; 51; 49; 109; 114; 101; 100; 27; 91; 48; 109; 7]%N.

End Lmsp.

(** ** Predicates for the further properties *)

(** No whitespace character in [s]. *)
Fixpoint no_space (s : string) : bool :=
  match s with
  | EmptyString => true
  | String c s' => negb (PyStr.isspace c) && no_space s'
  end.

(** A non-empty run of non-whitespace characters. *)
Definition is_word (s : string) : bool := PyStr.nonempty s && no_space s.

(** A value [len] accepts: a string, a list or a dict. *)
Definition sized (v : pyval) : bool :=
  match v with
  | PStr _ | PList _ | PDict _ => true
  | _ => false
  end.

(** The events of the two queries of the server status. *)
Definition status_query : event := Run ["lms"; "server"; "status"; "--json"] false None.
Definition health_probe : event := Get "http://localhost:1234/v1/models" (Some 2%Z).

(** What [get_server_status] answers when the probe finds the server. *)
Definition running_1234 : pyval := PDict [("running", PBool true); ("port", PInt 1234)].

(** What [ensure_model_loaded] may do: run a command, print to stderr. *)
Definition command_or_stderr (e : event) : Prop :=
  match e with
  | Run _ _ _ => True
  | Print to_stderr _ => to_stderr = true
  | _ => False
  end.

(** The load command of [ensure_model_loaded]. *)
Definition load_command (name : string) : event := Run ["lms"; "load"; name] false None.

(** The error string [send_prompt] makes of an exchange that did not end
    in a 200. *)
Definition failure_message (r : reply response) : string :=
  match r with
  | Fails (ConnectionError _) => connection_error
  | Fails (Timeout _) => "Error: Request timed out"
  | Fails e => "Error: " ++ str_exn e
  | Reply resp =>
      "Error: Server returned status " ++ PyStr.of_int (status_code resp) ++ ": " ++ text resp
  end.

(** The piped content [main] reads, and the prompt it settles on. *)
Definition piped_input (w : world) : option string :=
  if stdin_isatty w then None else Some (PyStr.strip (stdin_read w)).

Definition prompt_of (w : world) (args : Args.t) : option string :=
  final_prompt (Args.prompt args) (Args.mode args) (piped_input w).

(** Where the requests of a run for [port] go: the health probe to port
    1234 with 2 seconds, the prompt to [port] with 60 seconds. *)
Definition routed (port : Z) (e : event) : Prop :=
  match e with
  | Get url timeout => url = "http://localhost:1234/v1/models" /\ timeout = Some 2%Z
  | Post url _ _ timeout =>
      url = "http://localhost:" ++ PyStr.of_int port ++ "/v1/chat/completions"
      /\ timeout = Some 60%Z
  | _ => True
  end.

(** A listing query or a line on standard output. *)
Definition lists_models (e : event) : Prop :=
  match e with
  | Run argv _ _ => argv = ["lms"; "ps"; "--json"] \/ argv = ["lms"; "ps"]
  | Print to_stderr _ => to_stderr = false
  | _ => False
  end.

Definition server_down_message : string :=
  "Error: LM Studio server is not running. Start it with 'lms server start'".

(** ** A unary logic of traces

    [emits P m]: whatever [m] does, it only appends events to the trace, and
    every event it appends satisfies [P]. *)

Definition emits {A} (P : event -> Prop) (m : M A) : Prop :=
  forall t, exists new, snd (m t) = (t ++ new)%list /\ Forall P new.

(** * Theorems *)

(** ** The string operations on examples *)

Example strip_ex : PyStr.strip ("  a b " ++ PyStr.nl) = "a b".
Proof. reflexivity. Qed.

Example split_ws_ex : PyStr.split_ws "  llama-3   4GB " = ["llama-3"; "4GB"].
Proof. reflexivity. Qed.

Example split_on_ex :
  PyStr.split_on PyStr.newline ("Model ID" ++ PyStr.nl ++ PyStr.nl ++ "m")
  = ["Model ID"; ""; "m"].
Proof. reflexivity. Qed.

Example of_int_ex : PyStr.of_int 1234 = "1234" /\ PyStr.of_int 0 = "0" /\ PyStr.of_int (-5) = "-5".
Proof. repeat split; reflexivity. Qed.

Example lower_ex : PyStr.contains "not found" (PyStr.lower "Model NOT Found!") = true.
Proof. reflexivity. Qed.

(** ** The tests of [tests/test_lmsg.py], replayed on the embedding *)

Example test_get_loaded_models_with_json_output :
  fst (get_loaded_models Demo.loads Demo.ready [])
  = Ret (PList [PDict [("identifier", PStr "llama-3.2-1b-instruct")]]).
Proof. reflexivity. Qed.

Example test_get_loaded_models_returns_empty_when_none_loaded :
  fst (get_loaded_models Demo.loads Demo.down []) = Ret (PList []).
Proof. reflexivity. Qed.

Example test_server_status_check_when_running :
  fst (get_server_status Demo.loads Demo.ready [])
  = Ret (PDict [("running", PBool true); ("port", PInt 1234)]).
Proof. reflexivity. Qed.

Example test_server_status_check_when_not_running :
  get_server_status Demo.loads Demo.down []
  = (Ret not_running,
     [Run ["lms"; "server"; "status"; "--json"] false None;
      Get "http://localhost:1234/v1/models" (Some 2%Z)]).
Proof. reflexivity. Qed.

Example test_send_prompt_returns_model_response :
  fst (send_prompt Demo.loads Demo.ready "Hello" None 1234 [])
  = Ret (PStr "Hello! How can I help you?").
Proof. reflexivity. Qed.

Example test_send_prompt_handles_server_connection_error :
  fst (send_prompt Demo.loads Demo.down "Hello" (Some "llama-3.2-1b-instruct") 1234 [])
  = Ret (PStr "Error: Connection refused").
Proof. reflexivity. Qed.

Example test_piped_input_replaces_prompt_by_default :
  final_prompt None Args.replace (Some "This is piped content")
  = Some "This is piped content".
Proof. reflexivity. Qed.

Example test_pipe_mode_append_adds_piped_content_after_prompt :
  final_prompt (Some "Summarize this:") Args.append (Some "Document content here")
  = Some ("Summarize this:" ++ PyStr.nl ++ PyStr.nl ++ "Document content here").
Proof. reflexivity. Qed.

Example test_pipe_mode_prepend_adds_piped_content_before_prompt :
  final_prompt (Some "Based on the above, answer:") Args.prepend (Some "Context document")
  = Some ("Context document" ++ PyStr.nl ++ PyStr.nl ++ "Based on the above, answer:").
Proof. reflexivity. Qed.

Example test_model_auto_loading_when_not_loaded :
  ensure_model_loaded Demo.loads Demo.loadable "llama-3.2-1b-instruct" []
  = (Ret true,
     [Run ["lms"; "ps"; "--json"] false None;
      Run ["lms"; "load"; "llama-3.2-1b-instruct"] false None]).
Proof. reflexivity. Qed.

Example test_list_available_models_for_download :
  fst (list_available_models Demo.loadable []) = Ret ["model1"; "model2"; "model3"].
Proof. reflexivity. Qed.

(** ** Rules of the trace logic *)

Section TraceLogic.

Context {A B : Type} (P : event -> Prop).

Lemma emits_ret (a : A) : emits P (ret a).
Proof. intros t; exists []; simpl; rewrite app_nil_r; auto. Qed.

Lemma emits_raise (e : exn) : emits P (@raise A e).
Proof. intros t; exists []; simpl; rewrite app_nil_r; auto. Qed.

Lemma emits_sys_exit (c : Z) : emits P (@sys_exit A c).
Proof. intros t; exists []; simpl; rewrite app_nil_r; auto. Qed.

Lemma emits_lift (r : reply A) : emits P (lift r).
Proof. destruct r; [apply emits_ret | apply emits_raise]. Qed.

Lemma emits_emit (e : event) : P e -> emits P (emit e).
Proof. intros He t; exists [e]; simpl; auto. Qed.

Lemma emits_bind (m : M A) (k : A -> M B) :
  emits P m -> (forall a, emits P (k a)) -> emits P (bind m k).
Proof.
  intros Hm Hk t; unfold bind.
  destruct (Hm t) as (n1 & E1 & F1).
  destruct (m t) as [[a | e | c] t1]; simpl in E1; subst t1.
  - destruct (Hk a (t ++ n1)%list) as (n2 & E2 & F2).
    exists (n1 ++ n2)%list; rewrite E2, app_assoc; split; auto.
    apply Forall_app; auto.
  - exists n1; auto.
  - exists n1; auto.
Qed.

Lemma emits_try (body : M A) (handler : exn -> M A) :
  emits P body -> (forall e, emits P (handler e)) ->
  emits P (try_except body handler).
Proof.
  intros Hm Hk t; unfold try_except.
  destruct (Hm t) as (n1 & E1 & F1).
  destruct (body t) as [[a | e | c] t1]; simpl in E1; subst t1.
  - exists n1; auto.
  - destruct (Hk e (t ++ n1)%list) as (n2 & E2 & F2).
    exists (n1 ++ n2)%list; rewrite E2, app_assoc; split; auto.
    apply Forall_app; auto.
  - exists n1; auto.
Qed.

Lemma emits_weaken (Q : event -> Prop) (m : M A) :
  (forall e, Q e -> P e) -> emits Q m -> emits P m.
Proof.
  intros HQ Hm t; destruct (Hm t) as (n & E & F).
  exists n; split; auto. eapply Forall_impl; eauto.
Qed.

End TraceLogic.

(** One step of a proof that a computation [emits]: follow its syntax. *)
Ltac emits_step :=
  match goal with
  | |- emits _ (bind _ _) => apply emits_bind; [ | intros ]
  | |- emits _ (try_except _ _) => apply emits_try; [ | intros ]
  | |- emits _ (ret _) => apply emits_ret
  | |- emits _ (raise _) => apply emits_raise
  | |- emits _ (sys_exit _) => apply emits_sys_exit
  | |- emits _ (lift _) => apply emits_lift
  | |- emits _ (emit _) => apply emits_emit
  | |- emits _ (if ?b then _ else _) => destruct b
  | |- emits _ (match ?x with _ => _ end) => destruct x
  end.

Section LmsgTraces.

Variable json_loads : string -> option pyval.
Variable w : world.
Variable P : event -> Prop.

Lemma emits_subprocess_run argv :
  P (Run argv false None) -> emits P (subprocess_run w argv).
Proof.
  intros H t; exists [Run argv false None]; unfold subprocess_run.
  destruct (lms w (List.length t) argv); simpl; auto.
Qed.

Lemma emits_requests_get url timeout :
  P (Get url (Some timeout)) -> emits P (requests_get w url timeout).
Proof.
  intros H t; exists [Get url (Some timeout)]; unfold requests_get.
  destruct (http_get w (List.length t) url); simpl; auto.
Qed.

Lemma emits_requests_post url json timeout :
  P (Post url json None (Some timeout)) -> emits P (requests_post w url json timeout).
Proof.
  intros H t; exists [Post url json None (Some timeout)]; unfold requests_post.
  destruct (http_post w (List.length t) url json); simpl; auto.
Qed.

Lemma emits_loads s : emits P (loads json_loads s).
Proof. unfold loads; repeat emits_step. Qed.

Lemma emits_first_model lines : emits P (first_model lines).
Proof. induction lines; simpl; repeat emits_step; auto. Qed.

Lemma emits_get_loaded_models :
  P (Run ["lms"; "ps"; "--json"] false None) ->
  P (Run ["lms"; "ps"] false None) ->
  emits P (get_loaded_models json_loads w).
Proof.
  intros H1 H2; unfold get_loaded_models.
  repeat first [ apply emits_subprocess_run; assumption
               | apply emits_loads | apply emits_first_model | emits_step ].
Qed.

Lemma emits_get_server_status :
  P (Run ["lms"; "server"; "status"; "--json"] false None) ->
  P (Get "http://localhost:1234/v1/models" (Some 2%Z)) ->
  emits P (get_server_status json_loads w).
Proof.
  intros H1 H2; unfold get_server_status.
  repeat first [ apply emits_subprocess_run; assumption
               | apply emits_requests_get; assumption
               | apply emits_loads | emits_step ].
Qed.

Lemma emits_list_available_models :
  P (Run ["lms"; "ls"] false None) -> emits P (list_available_models w).
Proof.
  intros H1; unfold list_available_models.
  repeat first [ apply emits_subprocess_run; assumption | emits_step ].
Qed.

Lemma emits_already_loaded name items : emits P (already_loaded name items).
Proof. induction items; simpl; repeat emits_step; auto. Qed.

Lemma emits_print_available available :
  (forall line, P (Print true line)) -> emits P (print_available available).
Proof. intros H; induction available; simpl; repeat emits_step; auto. Qed.

Lemma emits_ensure_model_loaded name :
  P (Run ["lms"; "ps"; "--json"] false None) ->
  P (Run ["lms"; "ps"] false None) ->
  P (Run ["lms"; "load"; name] false None) ->
  P (Run ["lms"; "ls"] false None) ->
  (forall line, P (Print true line)) ->
  emits P (ensure_model_loaded json_loads w name).
Proof.
  intros H1 H2 H3 H4 H5; unfold ensure_model_loaded, load_model.
  repeat first [ apply emits_subprocess_run; assumption
               | apply emits_get_loaded_models; assumption
               | apply emits_list_available_models; assumption
               | apply emits_already_loaded
               | apply emits_print_available; assumption
               | emits_step ]; auto.
Qed.

Lemma emits_post_prompt url json :
  P (Post url json None (Some 60%Z)) -> emits P (post_prompt json_loads w url json).
Proof.
  intros H; unfold post_prompt.
  repeat first [ apply emits_requests_post; assumption | apply emits_loads | emits_step ].
Qed.

Lemma emits_default_model :
  P (Run ["lms"; "ps"; "--json"] false None) ->
  P (Run ["lms"; "ps"] false None) ->
  emits P (default_model json_loads w).
Proof.
  intros H1 H2; unfold default_model.
  repeat first [ apply emits_get_loaded_models; assumption | emits_step ].
Qed.

Lemma emits_send_prompt prompt model port :
  P (Run ["lms"; "ps"; "--json"] false None) ->
  P (Run ["lms"; "ps"] false None) ->
  (forall m, P (Post ("http://localhost:" ++ PyStr.of_int port ++ "/v1/chat/completions")
                     (build_payload m prompt) None (Some 60%Z))) ->
  emits P (send_prompt json_loads w prompt model port).
Proof.
  intros H1 H2 H3; unfold send_prompt.
  apply emits_bind.
  - destruct (opt_truthy model); [apply emits_ret | apply emits_default_model; assumption].
  - intros [m | ]; [apply emits_post_prompt, H3 | apply emits_ret].
Qed.

Lemma emits_print_loaded models :
  (forall line, P (Print false line)) -> emits P (print_loaded models).
Proof. intros H; induction models; simpl; repeat emits_step; auto. Qed.

Lemma emits_main_send args prompt :
  (forall argv, P (Run argv false None)) ->
  (forall url s, P (Get url (Some s))) ->
  (forall url m, P (Post url (build_payload m prompt) None (Some 60%Z))) ->
  (forall b line, P (Print b line)) ->
  emits P (main_send json_loads w args prompt).
Proof.
  intros H1 H2 H3 H4; unfold main_send.
  repeat first [ apply emits_get_server_status; auto
               | apply emits_ensure_model_loaded; auto
               | apply emits_send_prompt; auto
               | emits_step ]; auto.
Qed.

Lemma emits_main args :
  (forall argv, P (Run argv false None)) ->
  (forall url s, P (Get url (Some s))) ->
  (forall url json, P (Post url json None (Some 60%Z))) ->
  (forall b line, P (Print b line)) ->
  P PrintHelp ->
  emits P (main json_loads w args).
Proof.
  intros H1 H2 H3 H4 H5; unfold main.
  repeat first [ apply emits_get_server_status; auto
               | apply emits_get_loaded_models; auto
               | apply emits_print_loaded; auto
               | apply emits_main_send; auto
               | emits_step ]; auto.
Qed.

End LmsgTraces.

(** ** The claims about the wire: payload, headers, process invocations *)

Section Wire.

Variable json_loads : string -> option pyval.
Variable w : world.

(** C2 (as the code has it): every request [send_prompt] posts carries
    the payload with the one user message holding the prompt, temperature
    0.7, [max_tokens] -1 and [stream] false, never true; the model is the
    caller's string when one is given. *)
Theorem send_prompt_payload (prompt : string) (model : option string) (port : Z) :
  emits (posts_prompt prompt model) (send_prompt json_loads w prompt model port).
Proof.
  unfold send_prompt. destruct (opt_truthy model) eqn:E.
  - intros t. unfold bind, ret.
    apply emits_post_prompt. simpl. rewrite E. repeat split; auto.
  - apply emits_bind.
    + apply emits_default_model; exact I.
    + intros [m | ]; [ | apply emits_ret ].
      apply emits_post_prompt. simpl. rewrite E. repeat split; auto.
      discriminate.
Qed.

(** C8 (as the code has it): every request [send_prompt] posts passes no
    headers of its own, only the payload as [json=] and a timeout of 60
    seconds. *)
Theorem send_prompt_headers (prompt : string) (model : option string) (port : Z) :
  emits bare_post (send_prompt json_loads w prompt model port).
Proof. apply emits_send_prompt; simpl; auto. Qed.

(** C5 (as the code has it): every process the program starts, in each
    of its functions and whatever the arguments, is given as an argv
    list, without a shell and without any timeout. *)
Theorem subprocess_invocations :
  emits plain_run (get_loaded_models json_loads w)
  /\ emits plain_run (get_server_status json_loads w)
  /\ emits plain_run (list_available_models w)
  /\ (forall name, emits plain_run (ensure_model_loaded json_loads w name))
  /\ (forall prompt model port,
        emits plain_run (send_prompt json_loads w prompt model port))
  /\ (forall args, emits plain_run (main json_loads w args)).
Proof.
  repeat split; intros;
    first [ apply emits_get_loaded_models | apply emits_get_server_status
          | apply emits_list_available_models | apply emits_ensure_model_loaded
          | apply emits_send_prompt | apply emits_main ];
    simpl; auto.
Qed.

End Wire.

(** C2, refuted as stated: the one request made for ["Hello"] and the
    model ["m"] carries [stream] false. *)
Lemma send_prompt_stream_false :
  let posted := snd (send_prompt Demo.loads Demo.ready "Hello" (Some "m") 1234 []) in
  posted = [Post "http://localhost:1234/v1/chat/completions"
                 (build_payload (PStr "m") "Hello") None (Some 60%Z)]
  /\ stream (build_payload (PStr "m") "Hello") = false
  /\ forallb (Spec.payload_ok "Hello") posted = false.
Proof. repeat split; vm_compute; reflexivity. Qed.

(** C8, refuted as stated: the one request made for ["Hello"] passes no
    headers, so no [Content-Type: application/json; charset=utf-8]. *)
Lemma send_prompt_no_content_type :
  let posted := snd (send_prompt Demo.loads Demo.ready "Hello" (Some "m") 1234 []) in
  posted = [Post "http://localhost:1234/v1/chat/completions"
                 (build_payload (PStr "m") "Hello") None (Some 60%Z)]
  /\ forallb Spec.content_type_ok posted = false.
Proof. repeat split; vm_compute; reflexivity. Qed.

(** C5, refuted as stated: the listing query of [get_loaded_models] has no
    timeout at all, not the 30 seconds of the interface table. *)
Lemma get_loaded_models_unbounded :
  let ran := snd (get_loaded_models Demo.loads Demo.ready []) in
  ran = [Run ["lms"; "ps"; "--json"] false None]
  /\ Spec.operation_timeout ["lms"; "ps"; "--json"] = 30%Z
  /\ forallb Spec.invocation_ok ran = false.
Proof. repeat split; vm_compute; reflexivity. Qed.

(** ** What each function returns *)

Lemma split_ws_blank (s : string) : PyStr.split_ws s = [] -> PyStr.lstrip s = "".
Proof.
  induction s as [ | c s IH]; simpl; auto.
  destruct (PyStr.isspace c); auto.
  destruct s as [ | c' s']; [discriminate | ].
  destruct (PyStr.isspace c'); [discriminate | ].
  destruct (PyStr.split_ws (String c' s')); discriminate.
Qed.

Lemma split_ws_nonblank (line : string) :
  PyStr.nonempty (PyStr.strip line) = true ->
  exists token rest, PyStr.split_ws line = token :: rest.
Proof.
  intros H. destruct (PyStr.split_ws line) as [ | token rest] eqn:E; eauto.
  apply split_ws_blank in E. unfold PyStr.strip in H. rewrite E in H. discriminate.
Qed.

Section Returns.

Variable json_loads : string -> option pyval.
Variable w : world.

Lemma subprocess_run_eq argv t :
  subprocess_run w argv t
  = (match lms w (List.length t) argv with Reply c => Ret c | Fails e => Raise e end,
     (t ++ [Run argv false None])%list).
Proof. unfold subprocess_run; destruct (lms w (List.length t) argv); reflexivity. Qed.

(** The loop of the fallback touches nothing and cannot fail: it returns
    the record of the first non-blank line, if there is one. *)
Lemma first_model_find (rows : list string) (t : trace) :
  first_model rows t
  = (Ret (match find (fun line => PyStr.nonempty (PyStr.strip line)) rows with
          | Some line =>
              match PyStr.split_ws line with
              | token :: _ => Some (PList [PDict [("identifier", PStr token)]])
              | [] => None
              end
          | None => None
          end), t).
Proof.
  induction rows as [ | line rows IH]; simpl; auto.
  destruct (PyStr.nonempty (PyStr.strip line)) eqn:E; auto.
  destruct (split_ws_nonblank line E) as (token & rest & Hs).
  rewrite Hs. reflexivity.
Qed.

(** [get_loaded_models] never raises, and runs the listing queries only. *)
Lemma get_loaded_models_returns (t : trace) :
  exists models new,
    get_loaded_models json_loads w t = (Ret models, (t ++ new)%list)
    /\ Forall listing_query new.
Proof.
  assert (L1 : listing_query (Run ["lms"; "ps"; "--json"] false None)) by (left; auto).
  assert (L2 : listing_query (Run ["lms"; "ps"] false None)) by (right; auto).
  unfold get_loaded_models, try_except, bind.
  rewrite subprocess_run_eq.
  destruct (lms w (List.length t) ["lms"; "ps"; "--json"]) as [c | e].
  2:{ eexists; eexists; split; [ reflexivity | auto ]. }
  destruct ((returncode c =? 0)%Z && PyStr.nonempty (stdout c)).
  - unfold loads. destruct (json_loads (stdout c)) as [models | ]; simpl.
    + destruct (Py.len models); simpl; eexists; eexists; (split; [ reflexivity | auto ]).
    + eexists; eexists; split; [ reflexivity | auto ].
  - rewrite subprocess_run_eq, <- app_assoc.
    destruct (lms w _ ["lms"; "ps"]) as [c2 | e].
    2:{ eexists; eexists; split; [ reflexivity | simpl; auto ]. }
    destruct (returncode c2 =? 0)%Z.
    + destruct (1 <? List.length (PyStr.split_on PyStr.newline (PyStr.strip (stdout c2))))%nat.
      * rewrite first_model_find.
        destruct (find _ _) as [line | ]; [ destruct (PyStr.split_ws line) | ];
          eexists; eexists; (split; [ reflexivity | simpl; auto ]).
      * eexists; eexists; split; [ reflexivity | simpl; auto ].
    + eexists; eexists; split; [ reflexivity | simpl; auto ].
Qed.

End Returns.

(** ** The listing of loaded models and the default model *)

Section Listing.

Variable json_loads : string -> option pyval.
Variable w : world.

(** C7 (as the code has it): when the structured query exits non-zero or
    prints nothing, [get_loaded_models] runs the plain-text query next
    and returns what the specification's parse makes of its output: the
    header line skipped, one record whose identifier is the first token
    of the first remaining non-blank line; when that query fails too, by
    raising or by a non-zero exit, the result is the empty list. *)
Theorem get_loaded_models_fallback (t : trace) (c : completed) :
  lms w (List.length t) ["lms"; "ps"; "--json"] = Reply c ->
  returncode c <> 0%Z \/ stdout c = "" ->
  get_loaded_models json_loads w t
  = (Ret (match lms w (S (List.length t)) ["lms"; "ps"] with
          | Reply c2 =>
              if (returncode c2 =? 0)%Z then Spec.plain_text_models (stdout c2)
              else PList []
          | Fails _ => PList []
          end),
     (t ++ [Run ["lms"; "ps"; "--json"] false None; Run ["lms"; "ps"] false None])%list).
Proof.
  intros Hc Hfail.
  assert (G : (returncode c =? 0)%Z && PyStr.nonempty (stdout c) = false).
  { destruct Hfail as [H | H].
    - apply Z.eqb_neq in H. rewrite H. reflexivity.
    - rewrite H. apply andb_false_r. }
  unfold get_loaded_models, try_except, bind.
  rewrite subprocess_run_eq, Hc, G, subprocess_run_eq, <- app_assoc, length_app.
  simpl List.length. rewrite Nat.add_1_r.
  destruct (lms w (S (List.length t)) ["lms"; "ps"]) as [c2 | e]; [ | reflexivity ].
  destruct (returncode c2 =? 0)%Z; [ | reflexivity ].
  unfold Spec.plain_text_models.
  destruct (PyStr.split_on PyStr.newline (PyStr.strip (stdout c2))) as [ | header rows];
    [ reflexivity | ].
  destruct rows as [ | row rows]; [ reflexivity | ].
  change (1 <? List.length (header :: row :: rows))%nat with true.
  cbv beta iota. change (tl (header :: row :: rows)) with (row :: rows).
  rewrite first_model_find.
  destruct (find _ (row :: rows)) as [line | ]; [ | reflexivity ].
  destruct (PyStr.split_ws line); reflexivity.
Qed.

(** Output that is not empty and is no JSON ends the function at once:
    the plain-text query is not run. *)
Lemma get_loaded_models_invalid (t : trace) (c : completed) :
  lms w (List.length t) ["lms"; "ps"; "--json"] = Reply c ->
  returncode c = 0%Z -> stdout c <> "" -> json_loads (stdout c) = None ->
  get_loaded_models json_loads w t
  = (Ret (PList []), (t ++ [Run ["lms"; "ps"; "--json"] false None])%list).
Proof.
  intros Hc H0 Hout Hj.
  unfold get_loaded_models, try_except, bind, loads.
  rewrite subprocess_run_eq, Hc, H0, Hj.
  destruct (stdout c); [ contradiction | reflexivity ].
Qed.

(** The exchange: [post_prompt] posts once and returns; what it returns
    is the content of a well-formed 200 answer or an [Error:] string. *)
Lemma post_prompt_returns (url : string) (json : payload) (t : trace) :
  exists v,
    post_prompt json_loads w url json t
    = (Ret v, (t ++ [Post url json None (Some 60%Z)])%list)
    /\ (answered json_loads w (List.length t) url json v \/ is_error v = true).
Proof.
  unfold post_prompt, try_except, bind, requests_post.
  destruct (http_post w (List.length t) url json) as [r | e] eqn:Hp.
  - destruct (status_code r =? 200)%Z eqn:Hs.
    + unfold loads. destruct (json_loads (text r)) as [data | ] eqn:Hj.
      * simpl. destruct (message_content data) as [v | e] eqn:Hm; simpl.
        -- exists v; split; auto. left. exists r, data.
           apply Z.eqb_eq in Hs. auto.
        -- destruct e; eexists; (split; [ reflexivity | right; reflexivity ]).
      * eexists; split; [ reflexivity | right; reflexivity ].
    + eexists; split; [ reflexivity | right; reflexivity ].
  - destruct e; eexists; (split; [ reflexivity | right; reflexivity ]).
Qed.

(** Each failure of the exchange, by name. *)
Lemma post_prompt_failures (url : string) (json : payload) (t : trace) :
  let result := fst (post_prompt json_loads w url json t) in
  let error := exists v, result = Ret v /\ is_error v = true in
  (forall m, http_post w (List.length t) url json = Fails (ConnectionError m) ->
             result = Ret (PStr connection_error) /\ error)
  /\ (forall m, http_post w (List.length t) url json = Fails (Timeout m) ->
                result = Ret (PStr "Error: Request timed out") /\ error)
  /\ (forall e, http_post w (List.length t) url json = Fails e -> error)
  /\ (forall r, http_post w (List.length t) url json = Reply r ->
                status_code r <> 200%Z ->
                result = Ret (PStr ("Error: Server returned status "
                                    ++ PyStr.of_int (status_code r) ++ ": " ++ text r))
                /\ error)
  /\ (forall r, http_post w (List.length t) url json = Reply r ->
                status_code r = 200%Z -> json_loads (text r) = None -> error)
  /\ (forall r data e, http_post w (List.length t) url json = Reply r ->
                status_code r = 200%Z -> json_loads (text r) = Some data ->
                message_content data = Fails e -> error).
Proof.
  unfold post_prompt, try_except, bind, requests_post, loads. cbv zeta.
  assert (Neq : forall z, z <> 200%Z -> (z =? 200)%Z = false)
    by (intros; apply Z.eqb_neq; auto).
  repeat apply conj; intros;
    repeat match goal with
           | H : http_post _ _ _ _ = _ |- _ => rewrite H; clear H
           | H : status_code _ <> 200%Z |- _ => rewrite (Neq _ H); clear H
           | H : status_code _ = 200%Z |- _ => rewrite H; clear H
           | H : json_loads _ = _ |- _ => rewrite H; clear H
           | H : message_content _ = _ |- _ => simpl; rewrite H; clear H
           end;
    try match goal with e : exn |- _ => destruct e end;
    simpl; repeat apply conj; try reflexivity;
    eexists; split; reflexivity.
Qed.

(** C3: with no model given, an empty listing makes [send_prompt] return
    the no-models error after the listing queries alone, no request is
    sent; a listing that starts with a record makes it post the payload
    whose model is the identifier of that record. *)
Theorem send_prompt_default_model (prompt : string) (model : option string) (port : Z)
        (t t1 : trace) (models : pyval) :
  opt_truthy model = false ->
  get_loaded_models json_loads w t = (Ret models, t1) ->
  (models = PList [] ->
   send_prompt json_loads w prompt model port t = (Ret (PStr no_models_error), t1)
   /\ exists new, t1 = (t ++ new)%list /\ Forall listing_query new)
  /\ (forall r rest identifier,
        models = PList (PDict r :: rest) ->
        Py.lookup "identifier" r = Some identifier ->
        snd (send_prompt json_loads w prompt model port t)
        = (t1 ++ [Post ("http://localhost:" ++ PyStr.of_int port ++ "/v1/chat/completions")
                       (build_payload identifier prompt) None (Some 60%Z)])%list).
Proof.
  intros Hm Hg.
  assert (Hnew : exists new, t1 = (t ++ new)%list /\ Forall listing_query new).
  { destruct (get_loaded_models_returns json_loads w t) as (m' & new & Hg' & Hnew).
    rewrite Hg in Hg'. inversion Hg'; subst. eauto. }
  split.
  - intros ->. split; [ | exact Hnew ].
    unfold send_prompt. rewrite Hm. unfold bind at 1. unfold default_model, bind at 1.
    rewrite Hg. reflexivity.
  - intros r rest identifier -> Hid.
    unfold send_prompt. rewrite Hm. unfold bind at 1. unfold default_model, bind at 1.
    rewrite Hg. cbn -[Py.lookup append PyStr.of_int post_prompt]. rewrite Hid.
    match goal with
    | |- context [post_prompt _ _ ?u ?j ?tr] =>
        destruct (post_prompt_returns u j tr) as (v & Hv & _)
    end.
    unfold bind, ret. rewrite Hv. reflexivity.
Qed.

Lemma already_loaded_found (name : string) (before : list (list (string * pyval)))
      (r : list (string * pyval)) (rest : list pyval) (t : trace) :
  answers_to name r ->
  already_loaded name (map PDict before ++ PDict r :: rest) t = (Ret true, t).
Proof.
  intros Hr. induction before as [ | b before IH]; simpl.
  - unfold bind, lift, ret; simpl.
    destruct Hr as [H | H].
    + rewrite H. simpl. rewrite String.eqb_refl. reflexivity.
    + destruct (Py.eq_str _ name); [ reflexivity | ].
      rewrite H. simpl. rewrite String.eqb_refl. reflexivity.
  - unfold bind, lift, ret; simpl.
    destruct (Py.eq_str _ name); [ reflexivity | ].
    destruct (Py.eq_str _ name); [ reflexivity | ].
    exact IH.
Qed.

(** C4: when the listing holds a record that answers to the name, by
    identifier or by display name, [ensure_model_loaded] returns true
    having run the listing queries and nothing else; the load command is
    not run. *)
Theorem ensure_model_loaded_idempotent (name : string) (t t1 : trace)
        (before : list (list (string * pyval))) (r : list (string * pyval))
        (rest : list pyval) :
  get_loaded_models json_loads w t
  = (Ret (PList (map PDict before ++ PDict r :: rest)), t1) ->
  answers_to name r ->
  ensure_model_loaded json_loads w name t = (Ret true, t1)
  /\ exists new, t1 = (t ++ new)%list /\ Forall listing_query new.
Proof.
  intros Hg Hr. split.
  - unfold ensure_model_loaded. unfold bind at 1. rewrite Hg.
    unfold bind at 1. simpl. unfold bind at 1.
    rewrite (already_loaded_found name before r rest t1 Hr). reflexivity.
  - destruct (get_loaded_models_returns json_loads w t) as (m' & new & Hg' & Hnew).
    rewrite Hg in Hg'. inversion Hg'; subst. eauto.
Qed.

End Listing.

(** ** Loading a model *)

Lemma nth_error_middle {A : Type} (l1 : list A) (x : A) (l2 : list A) (n : nat) (y : A) :
  nth_error (l1 ++ x :: l2) n = Some y ->
  nth_error l1 n = Some y
  \/ (n = List.length l1 /\ y = x)
  \/ In y l2.
Proof.
  intros H. destruct (Nat.lt_ge_cases n (List.length l1)) as [Hlt | Hge].
  - left. rewrite nth_error_app1 in H by assumption. exact H.
  - right. rewrite nth_error_app2 in H by assumption.
    destruct (n - List.length l1)%nat as [ | k] eqn:E; simpl in H.
    + left. split; [ lia | congruence ].
    + right. eapply nth_error_In; eauto.
Qed.

Section Loading.

Variable json_loads : string -> option pyval.
Variable w : world.

Lemma list_available_models_runs (t : trace) :
  exists available,
    list_available_models w t = (Ret available, (t ++ [Run ["lms"; "ls"] false None])%list).
Proof.
  unfold list_available_models, try_except, bind. rewrite subprocess_run_eq.
  destruct (lms w (List.length t) ["lms"; "ls"]) as [c | e]; [ | eexists; reflexivity ].
  destruct ((returncode c =? 0)%Z && PyStr.nonempty (stdout c)); eexists; reflexivity.
Qed.

Lemma print_available_runs (name : string) (available : list string) (t : trace) :
  exists new,
    print_available available t = (Ret tt, (t ++ new)%list) /\ Forall (not_load name) new.
Proof.
  revert t. induction available as [ | model rest IH]; intros t; simpl.
  - exists []. rewrite app_nil_r. auto.
  - unfold bind, emit. cbv beta iota.
    match goal with
    | |- context [print_available rest ?tr] => destruct (IH tr) as (new & E & F)
    end.
    rewrite E, <- app_assoc. eexists; split; [ reflexivity | ].
    constructor; [ discriminate | exact F ].
Qed.

(** The loop over the loaded models touches nothing outside. *)
Lemma already_loaded_pure (name : string) (items : list pyval) (t : trace) :
  exists r : reply bool, already_loaded name items t = lift r t.
Proof.
  induction items as [ | loaded rest IH]; simpl.
  - exists (Reply false); reflexivity.
  - unfold bind at 1.
    destruct (Py.get loaded "identifier" PNone) as [i | e]; simpl;
      [ | exists (Fails e); reflexivity ].
    destruct (Py.eq_str i name); [ exists (Reply true); reflexivity | ].
    unfold bind at 1.
    destruct (Py.get loaded "name" PNone) as [n | e]; simpl;
      [ | exists (Fails e); reflexivity ].
    destruct (Py.eq_str n name); [ exists (Reply true); reflexivity | exact IH ].
Qed.

(** The [try] block: the load command is run once, first; a failed load
    gives false; an unknown model makes the list-available query the
    next call. *)
Lemma load_model_runs (name : string) (t : trace) :
  exists b rest,
    load_model w name t = (Ret b, (t ++ Run ["lms"; "load"; name] false None :: rest)%list)
    /\ (load_failed (lms w (List.length t) ["lms"; "load"; name]) -> b = false)
    /\ (forall c, lms w (List.length t) ["lms"; "load"; name] = Reply c ->
                  returncode c <> 0%Z -> unknown_model (stderr c) = true ->
                  exists rest', rest = Run ["lms"; "ls"] false None :: rest')
    /\ Forall (not_load name) rest.
Proof.
  unfold load_model, try_except. unfold bind at 1. rewrite subprocess_run_eq.
  destruct (lms w (List.length t) ["lms"; "load"; name]) as [c | e].
  2:{ exists false, []. repeat split; auto. discriminate. }
  destruct (returncode c =? 0)%Z eqn:Hrc.
  { exists true, []. apply Z.eqb_eq in Hrc. repeat split; auto.
    - simpl. intros H; contradiction.
    - intros c' Hc' Hn. inversion Hc'; subst. contradiction. }
  destruct (unknown_model (stderr c)) eqn:Hu.
  2:{ exists false, []. repeat split; auto. intros c' Hc' _ Hu'.
      inversion Hc'; subst. congruence. }
  unfold bind at 1. unfold bind at 1.
  destruct (list_available_models_runs (t ++ [Run ["lms"; "load"; name] false None])%list)
    as (available & Ha).
  rewrite Ha, <- app_assoc. simpl app.
  destruct available as [ | model available].
  - exists false, [Run ["lms"; "ls"] false None]. repeat split; eauto.
    constructor; [ discriminate | constructor ].
  - unfold bind, emit.
    match goal with
    | |- context [print_available ?l ?tr] =>
        destruct (print_available_runs name l tr) as (new & E & F)
    end.
    rewrite E. repeat rewrite <- app_assoc. simpl app.
    eexists; eexists; split; [ reflexivity | ].
    repeat split; eauto.
    constructor; [ discriminate | ].
    constructor; [ discriminate | ].
    apply Forall_app; split; auto.
    constructor; [ discriminate | constructor ].
Qed.

Lemma listing_not_load (name : string) (new : list event) :
  Forall listing_query new -> Forall (not_load name) new.
Proof.
  apply Forall_impl. intros e [-> | ->]; discriminate.
Qed.

(** C6: if a run of [ensure_model_loaded] starts the load command, as
    its [n]-th call, and the command fails, by raising or by a non-zero
    exit, the result is false, not an exception; and if the error text
    of the command has one of the markers of an unknown model, the call
    that follows is the list-available query. *)
Theorem ensure_model_loaded_load_fails (name : string) (t : trace) (n : nat) :
  (List.length t <= n)%nat ->
  nth_error (snd (ensure_model_loaded json_loads w name t)) n
  = Some (Run ["lms"; "load"; name] false None) ->
  load_failed (lms w n ["lms"; "load"; name]) ->
  fst (ensure_model_loaded json_loads w name t) = Ret false
  /\ (forall c, lms w n ["lms"; "load"; name] = Reply c ->
                unknown_model (stderr c) = true ->
                nth_error (snd (ensure_model_loaded json_loads w name t)) (S n)
                = Some (Run ["lms"; "ls"] false None)).
Proof.
  intros Hn.
  destruct (ensure_model_loaded json_loads w name t) as [result t_end] eqn:E.
  simpl fst; simpl snd.
  destruct (get_loaded_models_returns json_loads w t) as (models & new & Hg & Hnew).
  apply (listing_not_load name) in Hnew.
  assert (Old : forall k e, (List.length t <= k)%nat ->
                            nth_error (t ++ new) k = Some e -> not_load name e).
  { intros k e Hk He. rewrite nth_error_app2 in He by assumption.
    apply nth_error_In in He. rewrite Forall_forall in Hnew. auto. }
  unfold ensure_model_loaded, bind in E. rewrite Hg in E.
  destruct (Py.iter models) as [items | e]; simpl lift in E.
  2:{ inversion E; subst. intros H. apply Old in H; auto. contradiction H; reflexivity. }
  unfold ret at 1 in E.
  destruct (already_loaded_pure name items (t ++ new)%list) as (r & Hr).
  rewrite Hr in E.
  destruct r as [[ | ] | e]; simpl in E.
  1,3: inversion E; subst; intros H; apply Old in H; auto; contradiction H; reflexivity.
  destruct (load_model_runs name (t ++ new)%list) as (b & rest & Hl & Hb & Hls & Hrest).
  rewrite Hl in E. inversion E; subst. intros Hnth Hfail.
  apply nth_error_middle in Hnth. destruct Hnth as [Hold | [[-> _] | Hin]].
  - apply Old in Hold; auto. contradiction Hold; reflexivity.
  - split; [ rewrite Hb; auto | ].
    intros c Hc Hu. rewrite Hc in Hfail. simpl in Hfail.
    destruct (Hls c Hc Hfail Hu) as (rest' & ->).
    rewrite nth_error_app2 by lia.
    replace (S (List.length (t ++ new)) - List.length (t ++ new))%nat with 1%nat by lia.
    reflexivity.
  - rewrite Forall_forall in Hrest. apply Hrest in Hin. contradiction Hin; reflexivity.
Qed.

End Loading.

(** ** Piped input *)

Lemma nonempty_true (s : string) : s <> "" -> PyStr.nonempty s = true.
Proof. destruct s; [ contradiction | reflexivity ]. Qed.

Section Piping.

Variable json_loads : string -> option pyval.
Variable w : world.

(** C10: with a prompt argument and piped content that is not blank, the
    default pipe mode, [replace], keeps both: the prompt [main] goes on
    with, and posts, is the argument, an empty line, then the piped
    content. *)
Theorem main_replace_appends (args : Args.t) (p : string) :
  let piped := PyStr.strip (stdin_read w) in
  let composed := p ++ PyStr.nl ++ PyStr.nl ++ piped in
  Args.list_models args = false ->
  Args.check_server args = false ->
  Args.prompt args = Some p -> p <> "" ->
  Args.mode args = Args.replace ->
  stdin_isatty w = false -> piped <> "" ->
  final_prompt (Some p) Args.replace (Some piped) = Some composed
  /\ main json_loads w args = main_send json_loads w args composed
  /\ emits (sends composed) (main json_loads w args).
Proof.
  intros piped composed Hl Hc Hp Hne Hmode Htty Hpiped.
  apply nonempty_true in Hne, Hpiped.
  assert (F : final_prompt (Some p) Args.replace (Some piped) = Some composed).
  { unfold final_prompt, opt_truthy. rewrite Hne, Hpiped. reflexivity. }
  assert (E : main json_loads w args = main_send json_loads w args composed).
  { unfold main. rewrite Hl, Hc, Htty, Hp, Hmode. fold piped. rewrite F.
    unfold composed at 1. simpl opt_truthy.
    destruct p; [ discriminate | reflexivity ]. }
  repeat split; auto.
  rewrite E. apply emits_main_send; simpl; auto.
Qed.

End Piping.

(** ** The guard on terminal output *)

Module LmspFacts.
Import Lmsp.

Example sanitize_coloured : sanitize_terminal_output coloured = [114; 101; 100]%N.
Proof. reflexivity. Qed.



















End LmspFacts.

(** ** The theorems at work on concrete runs *)

(** C1, which the code breaks: when [lms ps --json] exits with 0 and
    prints the JSON array [[1]], [get_loaded_models] returns the list [[1]],
    which is no list of dicts, and [send_prompt("Hello")], given no model,
    raises [AttributeError] at [models[0].get], outside its [try], instead
    of returning an [Error:] string. *)
Lemma send_prompt_raises :
  get_loaded_models Demo.loads Demo.odd [] = (Ret (PList [PInt 1]), [Demo.ps_json])
  /\ send_prompt Demo.loads Demo.odd "Hello" None 1234 []
     = (Raise (AttributeError "'int' object has no attribute 'get'"), [Demo.ps_json]).
Proof. split; vm_compute; reflexivity. Qed.

(** Nothing loaded: the error, and the listing query alone. *)
Lemma send_prompt_default_model_witness :
  opt_truthy None = false
  /\ get_loaded_models Demo.loads Demo.unloaded [] = (Ret (PList []), [Demo.ps_json])
  /\ send_prompt Demo.loads Demo.unloaded "Hello" None 1234 []
     = (Ret (PStr no_models_error), [Demo.ps_json]).
Proof.
  assert (G : get_loaded_models Demo.loads Demo.unloaded [] = (Ret (PList []), [Demo.ps_json]))
    by (vm_compute; reflexivity).
  split; [ reflexivity | split; [ exact G | ] ].
  destruct (send_prompt_default_model Demo.loads Demo.unloaded "Hello" None 1234
                                      [] [Demo.ps_json] (PList []) eq_refl G) as [H _].
  exact (proj1 (H eq_refl)).
Defined.

(** The model is loaded already: one listing query, no load. *)
Lemma ensure_model_loaded_idempotent_witness :
  get_loaded_models Demo.loads Demo.ready []
  = (Ret (PList (map PDict [] ++ PDict [("identifier", PStr Demo.llama)] :: [])), [Demo.ps_json])
  /\ answers_to Demo.llama [("identifier", PStr Demo.llama)]
  /\ ensure_model_loaded Demo.loads Demo.ready Demo.llama [] = (Ret true, [Demo.ps_json]).
Proof.
  assert (G : get_loaded_models Demo.loads Demo.ready []
              = (Ret (PList (map PDict [] ++ PDict [("identifier", PStr Demo.llama)] :: [])),
                 [Demo.ps_json])) by (vm_compute; reflexivity).
  assert (A : answers_to Demo.llama [("identifier", PStr Demo.llama)]) by (left; reflexivity).
  split; [ exact G | split; [ exact A | ] ].
  exact (proj1 (ensure_model_loaded_idempotent Demo.loads Demo.ready Demo.llama
                                               [] [Demo.ps_json] [] _ [] G A)).
Defined.

(** The load of an unknown model fails: false, and [lms ls] comes next. *)
Lemma ensure_model_loaded_load_fails_witness :
  (List.length (@nil event) <= 1)%nat
  /\ nth_error (snd (ensure_model_loaded Demo.loads Demo.unloaded "not-a-real-model" [])) 1
     = Some (Run ["lms"; "load"; "not-a-real-model"] false None)
  /\ load_failed (lms Demo.unloaded 1 ["lms"; "load"; "not-a-real-model"])
  /\ fst (ensure_model_loaded Demo.loads Demo.unloaded "not-a-real-model" []) = Ret false
  /\ nth_error (snd (ensure_model_loaded Demo.loads Demo.unloaded "not-a-real-model" [])) 2
     = Some (Run ["lms"; "ls"] false None).
Proof.
  assert (H1 : (List.length (@nil event) <= 1)%nat) by (simpl; lia).
  assert (H2 : nth_error (snd (ensure_model_loaded Demo.loads Demo.unloaded
                                                   "not-a-real-model" [])) 1
               = Some (Run ["lms"; "load"; "not-a-real-model"] false None))
    by (vm_compute; reflexivity).
  assert (H3 : load_failed (lms Demo.unloaded 1 ["lms"; "load"; "not-a-real-model"]))
    by (simpl; discriminate).
  destruct (ensure_model_loaded_load_fails Demo.loads Demo.unloaded "not-a-real-model"
                                           [] 1 H1 H2 H3) as [R L].
  split; [ exact H1 | split; [ exact H2 | split; [ exact H3 | split; [ exact R | ] ] ] ].
  exact (L _ eq_refl eq_refl).
Defined.

(** C7, refuted as stated: [lms ps --json] exits 0 with output that is
    no JSON while [lms ps] would print a table with one model; the result
    is empty and [lms ps] is not run. *)
Lemma get_loaded_models_no_fallback :
  lms Demo.garbled 0 ["lms"; "ps"; "--json"] = Demo.exited 0 "lms: warning" ""
  /\ Demo.loads "lms: warning" = None
  /\ lms Demo.garbled 1 ["lms"; "ps"] = Demo.exited 0 Demo.table ""
  /\ Spec.plain_text_models Demo.table = PList [PDict [("identifier", PStr Demo.llama)]]
  /\ get_loaded_models Demo.loads Demo.garbled [] = (Ret (PList []), [Demo.ps_json]).
Proof. repeat split; vm_compute; reflexivity. Qed.

(** The structured query exits with 1: the table of [lms ps] is parsed. *)
Lemma get_loaded_models_fallback_witness :
  lms Demo.plain (List.length (@nil event)) ["lms"; "ps"; "--json"]
  = Reply {| returncode := 1; stdout := ""; stderr := "" |}
  /\ (1 <> 0 \/ "" = "")%Z
  /\ get_loaded_models Demo.loads Demo.plain []
     = (Ret (PList [PDict [("identifier", PStr Demo.llama)]]), [Demo.ps_json; Demo.ps]).
Proof.
  assert (H : (1 <> 0 \/ "" = "")%Z) by (right; reflexivity).
  split; [ reflexivity | split; [ exact H | ] ].
  exact (get_loaded_models_fallback Demo.loads Demo.plain []
           {| returncode := 1; stdout := ""; stderr := "" |} eq_refl H).
Defined.

(** [lmsg "Summarize this:"] with a document on standard input. *)
Lemma main_replace_appends_witness :
  final_prompt (Some "Summarize this:") Args.replace (Some "Document content here")
  = Some ("Summarize this:" ++ PyStr.nl ++ PyStr.nl ++ "Document content here")
  /\ emits (sends ("Summarize this:" ++ PyStr.nl ++ PyStr.nl ++ "Document content here"))
           (main Demo.loads Demo.ready Demo.args).
Proof.
  destruct (main_replace_appends Demo.loads Demo.ready Demo.args "Summarize this:")
    as (F & _ & E); try reflexivity; try discriminate.
  split; [ exact F | exact E ].
Defined.



(** * Further properties of [lmsg/cli.py] *)

(** ** Words and stripped strings *)

Lemma split_ws_words (s : string) :
  Forall (fun token => is_word token = true) (PyStr.split_ws s).
Proof.
  induction s as [ | c s IH]; simpl; [ constructor | ].
  destruct (PyStr.isspace c) eqn:Hc; [ exact IH | ].
  assert (W : forall w, no_space w = true -> is_word (String c w) = true).
  { intros w Hw. unfold is_word. simpl. rewrite Hc, Hw. reflexivity. }
  destruct s as [ | c' s'].
  - constructor; [ apply W; reflexivity | constructor ].
  - destruct (PyStr.isspace c') eqn:Hc'.
    + constructor; [ apply W; reflexivity | exact IH ].
    + destruct (PyStr.split_ws (String c' s')) as [ | w ws].
      * constructor; [ apply W; reflexivity | constructor ].
      * inversion IH as [ | ? ? Hw Hws]; subst.
        constructor; [ | exact Hws ].
        apply W. unfold is_word in Hw. apply andb_true_iff in Hw. tauto.
Qed.

Lemma rstrip_idempotent (s : string) : PyStr.rstrip (PyStr.rstrip s) = PyStr.rstrip s.
Proof.
  induction s as [ | c s IH]; simpl; auto.
  destruct (PyStr.rstrip s) as [ | d r] eqn:E.
  - destruct (PyStr.isspace c) eqn:Hc; simpl; [ reflexivity | rewrite Hc; reflexivity ].
  - change (PyStr.rstrip (String c (String d r))) with
      (match PyStr.rstrip (String d r) with
       | EmptyString => if PyStr.isspace c then EmptyString else String c EmptyString
       | x => String c x
       end).
    rewrite IH. reflexivity.
Qed.

Lemma lstrip_head (s : string) :
  match PyStr.lstrip s with
  | EmptyString => True
  | String c _ => PyStr.isspace c = false
  end.
Proof.
  induction s as [ | c s IH]; simpl; auto.
  destruct (PyStr.isspace c) eqn:Hc; [ exact IH | exact Hc ].
Qed.

Lemma rstrip_head (c : ascii) (s : string) :
  PyStr.isspace c = false -> exists r, PyStr.rstrip (String c s) = String c r.
Proof.
  intros Hc. simpl. destruct (PyStr.rstrip s); [ rewrite Hc | ]; eauto.
Qed.

(** [s.strip().strip() == s.strip()] *)
Lemma strip_idempotent (s : string) : PyStr.strip (PyStr.strip s) = PyStr.strip s.
Proof.
  unfold PyStr.strip.
  pose proof (lstrip_head s) as H.
  destruct (PyStr.lstrip s) as [ | c u] eqn:E; [ reflexivity | ].
  destruct (rstrip_head c u H) as (r & Hr).
  rewrite Hr. simpl PyStr.lstrip. rewrite H, <- Hr. apply rstrip_idempotent.
Qed.

(** ** The queries: loaded models, server status, available models *)

Section Queries.

Variable json_loads : string -> option pyval.
Variable w : world.

(** X1: [get_loaded_models] never raises, whatever the tool does, and runs
    one command, [lms ps --json], or two, [lms ps] after it. *)
Theorem get_loaded_models_never_raises (t : trace) :
  exists models new,
    get_loaded_models json_loads w t = (Ret models, (t ++ new)%list)
    /\ (new = [Demo.ps_json] \/ new = [Demo.ps_json; Demo.ps]).
Proof.
  unfold get_loaded_models, try_except, bind.
  rewrite subprocess_run_eq.
  destruct (lms w (List.length t) ["lms"; "ps"; "--json"]) as [c | e].
  2:{ eexists; eexists; split; [ reflexivity | left; reflexivity ]. }
  destruct ((returncode c =? 0)%Z && PyStr.nonempty (stdout c)).
  - unfold loads. destruct (json_loads (stdout c)) as [models | ]; simpl.
    + destruct (Py.len models); simpl;
        eexists; eexists; (split; [ reflexivity | left; reflexivity ]).
    + eexists; eexists; split; [ reflexivity | left; reflexivity ].
  - rewrite subprocess_run_eq, <- app_assoc.
    destruct (lms w _ ["lms"; "ps"]) as [c2 | e].
    2:{ eexists; eexists; split; [ reflexivity | right; reflexivity ]. }
    destruct (returncode c2 =? 0)%Z.
    + destruct (1 <? List.length (PyStr.split_on PyStr.newline (PyStr.strip (stdout c2))))%nat.
      * rewrite first_model_find.
        destruct (find _ _) as [line | ]; [ destruct (PyStr.split_ws line) | ];
          eexists; eexists; (split; [ reflexivity | right; reflexivity ]).
      * eexists; eexists; split; [ reflexivity | right; reflexivity ].
    + eexists; eexists; split; [ reflexivity | right; reflexivity ].
Qed.

(** X2: when [lms ps --json] exits with 0 and prints JSON, the decoded
    value is returned as it is, unchecked, if it is a string, a list or a
    dict; a number, a boolean or null gives the empty list.  No second
    command is run. *)
Theorem get_loaded_models_structured (t : trace) (c : completed) (v : pyval) :
  lms w (List.length t) ["lms"; "ps"; "--json"] = Reply c ->
  returncode c = 0%Z -> stdout c <> "" -> json_loads (stdout c) = Some v ->
  get_loaded_models json_loads w t
  = (Ret (if sized v then v else PList []), (t ++ [Demo.ps_json])%list).
Proof.
  intros Hc H0 Hout Hj.
  unfold get_loaded_models, try_except, bind, loads.
  rewrite subprocess_run_eq, Hc, H0, Hj.
  destruct (stdout c); [ contradiction | ].
  destruct v; reflexivity.
Qed.

(** X3: the plain-text fallback never returns more than one model: its
    result is the empty list or a single record whose identifier is a
    non-empty string without whitespace. *)
Theorem get_loaded_models_fallback_single (t : trace) (c : completed) :
  lms w (List.length t) ["lms"; "ps"; "--json"] = Reply c ->
  returncode c <> 0%Z \/ stdout c = "" ->
  fst (get_loaded_models json_loads w t) = Ret (PList [])
  \/ exists token,
      fst (get_loaded_models json_loads w t) = Ret (PList [PDict [("identifier", PStr token)]])
      /\ is_word token = true.
Proof.
  intros Hc Hfail.
  assert (G : (returncode c =? 0)%Z && PyStr.nonempty (stdout c) = false).
  { destruct Hfail as [H | H].
    - apply Z.eqb_neq in H. rewrite H. reflexivity.
    - rewrite H. apply andb_false_r. }
  unfold get_loaded_models, try_except, bind.
  rewrite subprocess_run_eq, Hc, G, subprocess_run_eq.
  destruct (lms w _ ["lms"; "ps"]) as [c2 | e]; [ | left; reflexivity ].
  destruct (returncode c2 =? 0)%Z; [ | left; reflexivity ].
  destruct (1 <? List.length (PyStr.split_on PyStr.newline (PyStr.strip (stdout c2))))%nat;
    [ | left; reflexivity ].
  rewrite first_model_find.
  destruct (find _ _) as [line | ]; [ | left; reflexivity ].
  pose proof (split_ws_words line) as W.
  destruct (PyStr.split_ws line) as [ | token rest]; [ left; reflexivity | ].
  right. exists token. split; [ reflexivity | ].
  inversion W; assumption.
Qed.

(** X4: [get_server_status] never raises and runs the status command,
    then at most the health probe. *)
Theorem get_server_status_never_raises (t : trace) :
  exists status new,
    get_server_status json_loads w t = (Ret status, (t ++ new)%list)
    /\ (new = [status_query] \/ new = [status_query; health_probe]).
Proof.
  unfold get_server_status, try_except, bind at 1.
  rewrite subprocess_run_eq.
  destruct (lms w (List.length t) _) as [c | e].
  2:{ eexists; eexists; split; [ reflexivity | left; reflexivity ]. }
  destruct ((returncode c =? 0)%Z && PyStr.nonempty (stdout c)).
  - unfold loads. destruct (json_loads (stdout c)) as [status | ]; simpl;
      eexists; eexists; (split; [ reflexivity | left; reflexivity ]).
  - unfold bind, requests_get. rewrite <- app_assoc.
    destruct (http_get w _ _) as [r | e].
    + destruct (status_code r =? 200)%Z;
        eexists; eexists; (split; [ reflexivity | right; reflexivity ]).
    + eexists; eexists; split; [ reflexivity | right; reflexivity ].
Qed.

(** X5: when the status command exits non-zero or prints nothing, the
    health probe decides: a 200 from port 1234 gives running on port 1234,
    any other status or any exception gives not running. *)
Theorem get_server_status_fallback (t : trace) (c : completed) :
  lms w (List.length t) ["lms"; "server"; "status"; "--json"] = Reply c ->
  returncode c <> 0%Z \/ stdout c = "" ->
  get_server_status json_loads w t
  = (Ret (match http_get w (S (List.length t)) "http://localhost:1234/v1/models" with
          | Reply r => if (status_code r =? 200)%Z then running_1234 else not_running
          | Fails _ => not_running
          end),
     (t ++ [status_query; health_probe])%list).
Proof.
  intros Hc Hfail.
  assert (G : (returncode c =? 0)%Z && PyStr.nonempty (stdout c) = false).
  { destruct Hfail as [H | H].
    - apply Z.eqb_neq in H. rewrite H. reflexivity.
    - rewrite H. apply andb_false_r. }
  unfold get_server_status, try_except, bind at 1.
  rewrite subprocess_run_eq, Hc, G.
  unfold bind, requests_get. rewrite <- app_assoc, length_app. simpl List.length.
  rewrite Nat.add_1_r.
  destruct (http_get w (S (List.length t)) _) as [r | e]; [ | reflexivity ].
  destruct (status_code r =? 200)%Z; reflexivity.
Qed.

(** X6: when the status command cannot be run at all, or prints something
    that is no JSON, the server is reported as not running and the health
    probe is not made. *)
Theorem get_server_status_no_probe (t : trace) :
  (exists e, lms w (List.length t) ["lms"; "server"; "status"; "--json"] = Fails e)
  \/ (exists c, lms w (List.length t) ["lms"; "server"; "status"; "--json"] = Reply c
                /\ returncode c = 0%Z /\ stdout c <> "" /\ json_loads (stdout c) = None) ->
  get_server_status json_loads w t = (Ret not_running, (t ++ [status_query])%list).
Proof.
  intros [(e & He) | (c & Hc & H0 & Hout & Hj)];
    unfold get_server_status, try_except, bind at 1; rewrite subprocess_run_eq.
  - rewrite He. reflexivity.
  - rewrite Hc, H0. unfold loads. rewrite Hj.
    destruct (stdout c); [ contradiction | reflexivity ].
Qed.

(** X7: [list_available_models] never raises and runs [lms ls] once; the
    names it returns are non-empty and carry no whitespace at either end;
    a non-zero exit, an empty output or an exception gives the empty
    list. *)
Theorem list_available_models_names (t : trace) :
  exists names,
    list_available_models w t = (Ret names, (t ++ [Run ["lms"; "ls"] false None])%list)
    /\ Forall (fun m => m <> "" /\ PyStr.strip m = m) names
    /\ (forall e, lms w (List.length t) ["lms"; "ls"] = Fails e -> names = [])
    /\ (forall c, lms w (List.length t) ["lms"; "ls"] = Reply c ->
                  returncode c <> 0%Z \/ stdout c = "" -> names = []).
Proof.
  unfold list_available_models, try_except, bind. rewrite subprocess_run_eq.
  destruct (lms w (List.length t) ["lms"; "ls"]) as [c | e].
  2:{ exists []. repeat split; auto. }
  destruct ((returncode c =? 0)%Z && PyStr.nonempty (stdout c)) eqn:G.
  - eexists. split; [ reflexivity | ]. split; [ | split ].
    + apply Forall_forall. intros m Hm. apply in_map_iff in Hm.
      destruct Hm as (line & <- & Hline). apply filter_In in Hline.
      destruct Hline as [_ Hne]. split.
      * intros E. rewrite E in Hne. discriminate.
      * apply strip_idempotent.
    + discriminate.
    + intros c' Hc' Hfail. inversion Hc'; subst c'.
      apply andb_true_iff in G. destruct G as [G1 G2].
      destruct Hfail as [H | H].
      * apply Z.eqb_eq in G1. contradiction.
      * rewrite H in G2. discriminate.
  - exists []. repeat split; auto.
Qed.

End Queries.

(** ** Loading: when the command runs, and what is shown *)

Lemma eq_str_true (v : pyval) (s : string) : Py.eq_str v s = true -> v = PStr s.
Proof.
  destruct v; simpl; try discriminate.
  intros H. apply String.eqb_eq in H. congruence.
Qed.

Section MoreLoading.

Variable json_loads : string -> option pyval.
Variable w : world.

Lemma already_loaded_none (name : string) (recs : list (list (string * pyval))) (t : trace) :
  Forall (fun r => ~ answers_to name r) recs ->
  already_loaded name (map PDict recs) t = (Ret false, t).
Proof.
  induction 1 as [ | r recs Hr _ IH]; simpl; [ reflexivity | ].
  unfold bind, lift, ret; simpl.
  destruct (Py.eq_str _ name) eqn:E1.
  { exfalso. apply Hr. left. apply eq_str_true in E1.
    destruct (Py.lookup "identifier" r); [ congruence | discriminate ]. }
  destruct (Py.eq_str (match Py.lookup "name" r with Some x => x | None => PNone end) name)
    eqn:E2.
  { exfalso. apply Hr. right. apply eq_str_true in E2.
    destruct (Py.lookup "name" r); [ congruence | discriminate ]. }
  exact IH.
Qed.

(** The [try] block returns whether the load command exited with 0, and
    after a successful load nothing else happens. *)
Lemma load_model_result (name : string) (t : trace) :
  exists rest,
    load_model w name t
    = (Ret (match lms w (List.length t) ["lms"; "load"; name] with
            | Reply c => (returncode c =? 0)%Z
            | Fails _ => false
            end),
       (t ++ load_command name :: rest)%list)
    /\ ((exists c, lms w (List.length t) ["lms"; "load"; name] = Reply c
                   /\ returncode c = 0%Z) -> rest = []).
Proof.
  unfold load_model, try_except. unfold bind at 1. rewrite subprocess_run_eq.
  destruct (lms w (List.length t) ["lms"; "load"; name]) as [c | e].
  2:{ exists []. split; [ reflexivity | ]. intros (c & Hc & _). discriminate. }
  destruct (returncode c =? 0)%Z eqn:Hrc.
  { exists []. split; reflexivity. }
  assert (No : (exists c0, Reply c = Reply c0 /\ returncode c0 = 0%Z) -> False).
  { intros (c0 & Hc0 & H0). inversion Hc0; subst c0.
    apply Z.eqb_neq in Hrc. contradiction. }
  destruct (unknown_model (stderr c)).
  2:{ exists []. split; [ reflexivity | ]. intros H; destruct (No H). }
  unfold bind at 1. unfold bind at 1.
  destruct (list_available_models_runs w (t ++ [Run ["lms"; "load"; name] false None])%list)
    as (available & Ha).
  rewrite Ha, <- app_assoc. simpl app.
  destruct available as [ | model available].
  - eexists. split; [ reflexivity | ]. intros H; destruct (No H).
  - unfold bind, emit.
    match goal with
    | |- context [print_available ?l ?tr] =>
        destruct (print_available_runs name l tr) as (new & E & _)
    end.
    rewrite E. repeat rewrite <- app_assoc. simpl app.
    eexists. split; [ reflexivity | ]. intros H; destruct (No H).
Qed.

(** X8: when the listing is a list of records and none of them answers
    to the name, the load command is the next call, and the result of
    [ensure_model_loaded] is whether it exited with 0; an exception of the
    command gives false. *)
Theorem ensure_model_loaded_not_listed (name : string) (t t1 : trace)
        (recs : list (list (string * pyval))) :
  get_loaded_models json_loads w t = (Ret (PList (map PDict recs)), t1) ->
  Forall (fun r => ~ answers_to name r) recs ->
  exists rest,
    ensure_model_loaded json_loads w name t
    = (Ret (match lms w (List.length t1) ["lms"; "load"; name] with
            | Reply c => (returncode c =? 0)%Z
            | Fails _ => false
            end),
       (t1 ++ load_command name :: rest)%list).
Proof.
  intros Hg Hn.
  destruct (load_model_result name t1) as (rest & Hl & _).
  exists rest. unfold ensure_model_loaded. unfold bind at 1. rewrite Hg.
  unfold bind at 1. simpl. unfold bind at 1.
  rewrite (already_loaded_none name recs t1 Hn). exact Hl.
Qed.

(** X9: a run of [ensure_model_loaded] that returns true was silent: it
    ran the listing queries and at most the load command after them, it
    printed nothing and did not list the available models. *)
Theorem ensure_model_loaded_success_silent (name : string) (t : trace) :
  fst (ensure_model_loaded json_loads w name t) = Ret true ->
  exists listing,
    Forall listing_query listing
    /\ (snd (ensure_model_loaded json_loads w name t) = (t ++ listing)%list
        \/ snd (ensure_model_loaded json_loads w name t)
           = (t ++ listing ++ [load_command name])%list).
Proof.
  destruct (ensure_model_loaded json_loads w name t) as [result t_end] eqn:E.
  simpl. intros ->.
  destruct (get_loaded_models_returns json_loads w t) as (models & new & Hg & Hnew).
  exists new. split; [ exact Hnew | ].
  unfold ensure_model_loaded, bind in E. rewrite Hg in E.
  destruct (Py.iter models) as [items | e]; simpl lift in E; [ | discriminate ].
  unfold ret at 1 in E.
  destruct (already_loaded_pure name items (t ++ new)%list) as (r & Hr).
  rewrite Hr in E.
  destruct r as [[ | ] | e]; simpl in E; [ | | discriminate ].
  - left. inversion E. reflexivity.
  - right. destruct (load_model_result name (t ++ new)%list) as (rest & Hl & Hrest).
    rewrite Hl in E. inversion E as [[Hb Ht]].
    destruct (lms w (List.length (t ++ new)) ["lms"; "load"; name]) as [c | e];
      [ | discriminate ].
    rewrite Hrest, app_assoc; [ reflexivity | ].
    exists c. split; [ reflexivity | apply Z.eqb_eq; assumption ].
Qed.

(** X10: [ensure_model_loaded] makes no HTTP request and writes nothing
    to standard output: all it does is run commands and print to
    stderr. *)
Theorem ensure_model_loaded_stderr_only (name : string) :
  emits command_or_stderr (ensure_model_loaded json_loads w name).
Proof. apply emits_ensure_model_loaded; simpl; auto. Qed.

End MoreLoading.

(** ** The exchange: one post, its failures, its success *)

Section Exchange.

Variable json_loads : string -> option pyval.
Variable w : world.

(** X11: with a model given and a port whose digits an f-string can
    format, [send_prompt] never raises, does not consult the listing, and
    makes exactly one call: the post of the payload for that model to the
    chat-completions URL of the port, with a timeout of 60 seconds. *)
Theorem send_prompt_given_model (prompt m : string) (port : Z) (t : trace) :
  m <> "" ->
  PyStr.fits port = true ->
  exists v,
    send_prompt json_loads w prompt (Some m) port t
    = (Ret v,
       (t ++ [Post ("http://localhost:" ++ PyStr.of_int port ++ "/v1/chat/completions")
                   (build_payload (PStr m) prompt) None (Some 60%Z)])%list).
Proof.
  intros Hm _. unfold send_prompt. simpl opt_truthy. rewrite (nonempty_true m Hm).
  unfold bind, ret. simpl opt_format.
  destruct (post_prompt_returns json_loads w
              ("http://localhost:" ++ PyStr.of_int port ++ "/v1/chat/completions")
              (build_payload (PStr m) prompt) t) as (v & Hv & _).
  exists v. exact Hv.
Qed.

(** X12: unless the server answers 200, the result of [send_prompt] for a
    given model is a fixed message per failure: one for a connection
    error, one for a timeout, the text of any other exception after
    [Error: ], and the status and body of any other response. *)
Theorem send_prompt_failure_messages (prompt m : string) (port : Z) (t : trace) :
  let url := "http://localhost:" ++ PyStr.of_int port ++ "/v1/chat/completions" in
  let answer := http_post w (List.length t) url (build_payload (PStr m) prompt) in
  m <> "" ->
  (forall r, answer = Reply r -> status_code r <> 200%Z) ->
  fst (send_prompt json_loads w prompt (Some m) port t)
  = Ret (PStr (failure_message answer)).
Proof.
  intros url answer Hm Hfail. unfold send_prompt. simpl opt_truthy.
  rewrite (nonempty_true m Hm). unfold bind at 1, ret. simpl opt_format. fold url.
  unfold post_prompt, try_except, bind, requests_post. fold answer.
  destruct answer as [r | e] eqn:Ha.
  - specialize (Hfail r eq_refl). apply Z.eqb_neq in Hfail. rewrite Hfail. reflexivity.
  - destruct e; reflexivity.
Qed.

(** X13: [data['choices'][0]['message']['content']] succeeds exactly on a
    dict whose [choices] is a list that starts with a dict whose [message]
    is a dict that has a [content]; the value found is returned whatever
    its type. *)
Theorem message_content_shape (data v : pyval) :
  message_content data = Reply v
  <-> exists kv kv1 rest kv2,
        data = PDict kv
        /\ Py.lookup "choices" kv = Some (PList (PDict kv1 :: rest))
        /\ Py.lookup "message" kv1 = Some (PDict kv2)
        /\ Py.lookup "content" kv2 = Some v.
Proof.
  unfold message_content, and_then. split.
  - destruct data as [ | | | | | | kv]; simpl; try discriminate.
    destruct (Py.lookup "choices" kv) as [choices | ] eqn:E1; [ | discriminate ].
    destruct choices as [ | | | | s | l | kv']; simpl; try discriminate.
    { destruct s; simpl; discriminate. }
    destruct l as [ | choice rest]; simpl; [ discriminate | ].
    destruct choice as [ | | | | | | kv1]; simpl; try discriminate.
    destruct (Py.lookup "message" kv1) as [msg | ] eqn:E2; [ | discriminate ].
    destruct msg as [ | | | | | | kv2]; simpl; try discriminate.
    destruct (Py.lookup "content" kv2) as [x | ] eqn:E3; [ | discriminate ].
    intros H. inversion H; subst. exists kv, kv1, rest, kv2. auto.
  - intros (kv & kv1 & rest & kv2 & -> & E1 & E2 & E3).
    simpl. rewrite E1. simpl. rewrite E2. simpl. rewrite E3. reflexivity.
Qed.

(** X14: when the server answers the post with a 200 whose body decodes
    and has the content, [send_prompt] returns that content. *)
Theorem send_prompt_success (prompt m : string) (port : Z) (t : trace)
        (r : response) (data v : pyval) :
  m <> "" ->
  http_post w (List.length t)
            ("http://localhost:" ++ PyStr.of_int port ++ "/v1/chat/completions")
            (build_payload (PStr m) prompt) = Reply r ->
  status_code r = 200%Z ->
  json_loads (text r) = Some data ->
  message_content data = Reply v ->
  fst (send_prompt json_loads w prompt (Some m) port t) = Ret v.
Proof.
  intros Hm Hp Hs Hj Hc. unfold send_prompt. simpl opt_truthy.
  rewrite (nonempty_true m Hm). unfold bind at 1, ret. simpl opt_format.
  unfold post_prompt, try_except, bind, requests_post, loads.
  rewrite Hp, Hs, Hj. simpl. rewrite Hc. reflexivity.
Qed.

(** X15: with no model given and a first record that has no identifier,
    the model posted is the name of that record, and the empty string
    when it has no name either. *)
Theorem send_prompt_default_model_name (prompt : string) (given : option string) (port : Z)
        (t t1 : trace) (r : list (string * pyval)) (rest : list pyval) :
  opt_truthy given = false ->
  get_loaded_models json_loads w t = (Ret (PList (PDict r :: rest)), t1) ->
  Py.lookup "identifier" r = None ->
  snd (send_prompt json_loads w prompt given port t)
  = (t1 ++ [Post ("http://localhost:" ++ PyStr.of_int port ++ "/v1/chat/completions")
                 (build_payload (match Py.lookup "name" r with
                                 | Some name => name
                                 | None => PStr ""
                                 end) prompt)
                 None (Some 60%Z)])%list.
Proof.
  intros Hm Hg Hid.
  unfold send_prompt. rewrite Hm. unfold bind at 1. unfold default_model, bind at 1.
  rewrite Hg. cbn -[Py.lookup append PyStr.of_int post_prompt]. rewrite Hid.
  match goal with
  | |- context [post_prompt _ _ ?u ?j ?tr] =>
      destruct (post_prompt_returns json_loads w u j tr) as (v & Hv & _)
  end.
  unfold bind, ret. rewrite Hv. reflexivity.
Qed.

End Exchange.

(** ** [main]: the prompt it settles on, and how it ends *)

(** X16: the pipe mode [replace] never replaces anything a mode could
    keep: on every prompt and piped content it gives what [append]
    gives. *)
Theorem final_prompt_replace_is_append (prompt piped_content : option string) :
  final_prompt prompt Args.replace piped_content
  = final_prompt prompt Args.append piped_content.
Proof.
  unfold final_prompt.
  destruct (opt_truthy piped_content), (opt_truthy prompt); reflexivity.
Qed.

Lemma append_nonempty (a b : string) : a <> "" -> PyStr.nonempty (a ++ b) = true.
Proof. destruct a; [ contradiction | reflexivity ]. Qed.

Lemma opt_truthy_some (o : option string) :
  opt_truthy o = true -> exists s, o = Some s /\ s <> "".
Proof.
  destruct o as [s | ]; simpl; [ | discriminate ].
  destruct s; [ discriminate | ]. intros _. eexists; split; [ reflexivity | discriminate ].
Qed.

(** X17: in every mode the prompt [main] settles on is empty exactly when
    both the argument and the piped content are empty or missing; that is
    when [main] shows the help. *)
Theorem final_prompt_truthy (prompt piped_content : option string) (mode : Args.pipe_mode) :
  opt_truthy (final_prompt prompt mode piped_content)
  = opt_truthy prompt || opt_truthy piped_content.
Proof.
  unfold final_prompt.
  destruct (opt_truthy piped_content) eqn:Hq; [ | rewrite orb_false_r; reflexivity ].
  destruct (opt_truthy prompt) eqn:Hp.
  - destruct (opt_truthy_some _ Hp) as (p & -> & Hne).
    destruct (opt_truthy_some _ Hq) as (q & -> & Hqe).
    destruct mode; simpl; [ | | apply append_nonempty; assumption ];
      apply append_nonempty; assumption.
  - destruct mode; simpl; rewrite ?Hq; reflexivity.
Qed.

(** X18: in every mode, a prompt with no piped content, or with blank
    piped content, is sent as it is, and so is piped content with no
    prompt. *)
Theorem final_prompt_alone (prompt piped_content : option string) (mode : Args.pipe_mode) :
  (opt_truthy piped_content = false -> final_prompt prompt mode piped_content = prompt)
  /\ (opt_truthy prompt = false -> opt_truthy piped_content = true ->
      final_prompt prompt mode piped_content = piped_content).
Proof.
  unfold final_prompt. split.
  - intros ->. reflexivity.
  - intros -> ->. destruct mode; reflexivity.
Qed.

Section Main.

Variable json_loads : string -> option pyval.
Variable w : world.

Lemma main_goes_on (args : Args.t) :
  Args.list_models args = false -> Args.check_server args = false ->
  opt_truthy (prompt_of w args) = true ->
  main json_loads w args = main_send json_loads w args (opt_format (prompt_of w args)).
Proof.
  intros Hl Hc Hp. unfold main. rewrite Hl, Hc. cbv zeta.
  fold (piped_input w). fold (prompt_of w args). rewrite Hp. reflexivity.
Qed.

(** X19: with no prompt argument and nothing piped (a terminal, or blank
    input), [main] shows the help and does nothing else: no command, no
    request. *)
Theorem main_no_input_prints_help (args : Args.t) (t : trace) :
  Args.list_models args = false -> Args.check_server args = false ->
  opt_truthy (Args.prompt args) = false ->
  stdin_isatty w = true \/ PyStr.strip (stdin_read w) = "" ->
  main json_loads w args t = (Ret tt, (t ++ [PrintHelp])%list).
Proof.
  intros Hl Hc Hp Hin. unfold main. rewrite Hl, Hc. cbv zeta.
  assert (Hq : opt_truthy (if stdin_isatty w then None
                           else Some (PyStr.strip (stdin_read w))) = false).
  { destruct Hin as [H | H]; rewrite H; [ reflexivity | ].
    destruct (stdin_isatty w); reflexivity. }
  unfold final_prompt. rewrite Hq, Hp. reflexivity.
Qed.

(** X20: when the status of the server has no true [running], [main]
    prints the error to stderr and exits with 1 right after the status
    check: no model is loaded, no prompt is sent. *)
Theorem main_server_down_exits (args : Args.t) (t t1 : trace) (status running : pyval) :
  Args.list_models args = false -> Args.check_server args = false ->
  opt_truthy (prompt_of w args) = true ->
  get_server_status json_loads w t = (Ret status, t1) ->
  Py.get status "running" PNone = Reply running ->
  Py.truthy running = false ->
  main json_loads w args t = (Exit 1, (t1 ++ [Print true [Lit server_down_message]])%list).
Proof.
  intros Hl Hc Hp Hs Hr Hf.
  rewrite (main_goes_on args Hl Hc Hp). unfold main_send.
  unfold bind at 1. rewrite Hs. unfold bind at 1. rewrite Hr. simpl lift. unfold ret at 1.
  rewrite Hf. reflexivity.
Qed.

(** X21: when the server runs and the model asked for cannot be loaded,
    [main] prints the error to stderr and exits with 1: the prompt is not
    sent. *)
Theorem main_load_failure_exits (args : Args.t) (m : string) (t t1 t2 : trace)
        (status running : pyval) :
  Args.list_models args = false -> Args.check_server args = false ->
  opt_truthy (prompt_of w args) = true ->
  Args.model args = Some m -> m <> "" ->
  get_server_status json_loads w t = (Ret status, t1) ->
  Py.get status "running" PNone = Reply running ->
  Py.truthy running = true ->
  ensure_model_loaded json_loads w m t1 = (Ret false, t2) ->
  main json_loads w args t
  = (Exit 1, (t2 ++ [Print true [Lit ("Error: Failed to load model '" ++ m ++ "'")]])%list).
Proof.
  intros Hl Hc Hp Hm Hne Hs Hr Ht He.
  rewrite (main_goes_on args Hl Hc Hp). unfold main_send.
  unfold bind at 1. rewrite Hs. unfold bind at 1. rewrite Hr. simpl lift. unfold ret at 1.
  assert (Hmt : opt_truthy (Args.model args) = true)
    by (rewrite Hm; apply nonempty_true; assumption).
  rewrite Ht, Hmt, Hm. cbn [negb opt_format].
  unfold bind at 1. unfold bind at 1. rewrite He. reflexivity.
Qed.

(** X22: in every run that reaches it, with a model given and loaded or
    with none given, whatever [send_prompt] returns, the answer of the
    model or an [Error:] string, [main] prints it to standard output and
    ends normally, without [sys.exit]. *)
Theorem main_prints_result (args : Args.t) (t t1 t2 t3 : trace) (status running v : pyval) :
  Args.list_models args = false -> Args.check_server args = false ->
  opt_truthy (prompt_of w args) = true ->
  get_server_status json_loads w t = (Ret status, t1) ->
  Py.get status "running" PNone = Reply running ->
  Py.truthy running = true ->
  (opt_truthy (Args.model args) = false /\ t2 = t1)
  \/ (opt_truthy (Args.model args) = true
      /\ ensure_model_loaded json_loads w (opt_format (Args.model args)) t1 = (Ret true, t2)) ->
  send_prompt json_loads w (opt_format (prompt_of w args)) (Args.model args) (Args.port args) t2
  = (Ret v, t3) ->
  main json_loads w args t = (Ret tt, (t3 ++ [Print false [Fmt v]])%list).
Proof.
  intros Hl Hc Hp Hs Hr Ht Hm Hv.
  rewrite (main_goes_on args Hl Hc Hp). unfold main_send.
  unfold bind at 1. rewrite Hs. unfold bind at 1. rewrite Hr. simpl lift. unfold ret at 1.
  rewrite Ht. cbn [negb].
  destruct Hm as [[Hm ->] | [Hm He]]; rewrite Hm.
  - unfold bind at 1. unfold ret at 1. unfold bind at 1. rewrite Hv. reflexivity.
  - unfold bind at 1. unfold bind at 1. rewrite He. cbn [negb]. unfold ret at 1.
    unfold bind at 1. rewrite Hv. reflexivity.
Qed.

(** X23: [--list-models] comes first: whatever the other arguments, a run
    with it only runs the listing queries and prints to standard output;
    it makes no request and loads nothing. *)
Theorem main_list_models_only (args : Args.t) :
  Args.list_models args = true ->
  emits lists_models (main json_loads w args).
Proof.
  intros Hl. unfold main. rewrite Hl.
  repeat first [ apply emits_get_loaded_models; simpl; auto
               | apply emits_print_loaded; simpl; auto
               | emits_step ]; simpl; auto.
Qed.

(** X24: in every run of [main] the health probe goes to port 1234, with
    2 seconds, whatever [--port] says, and the prompt goes to the
    chat-completions URL of [--port], with 60 seconds. *)
Theorem main_routes (args : Args.t) :
  emits (routed (Args.port args)) (main json_loads w args).
Proof.
  unfold main, main_send.
  repeat first [ apply emits_get_server_status; simpl; auto
               | apply emits_get_loaded_models; simpl; auto
               | apply emits_print_loaded; simpl; auto
               | apply emits_ensure_model_loaded; simpl; auto
               | apply emits_send_prompt; simpl; auto
               | emits_step ]; simpl; auto.
Qed.

End Main.

(** ** The further properties at work on concrete runs *)

Lemma get_loaded_models_structured_witness :
  lms Demo.ready (List.length (@nil event)) ["lms"; "ps"; "--json"]
  = Demo.exited 0 Demo.one_model ""
  /\ get_loaded_models Demo.loads Demo.ready []
     = (Ret (PList [PDict [("identifier", PStr Demo.llama)]]), [Demo.ps_json]).
Proof.
  split; [ reflexivity | ].
  refine (get_loaded_models_structured Demo.loads Demo.ready []
            {| returncode := 0; stdout := Demo.one_model; stderr := "" |}
            _ eq_refl eq_refl _ eq_refl).
  discriminate.
Defined.

(** A number in place of the listing gives the empty list. *)
Example get_loaded_models_scalar :
  get_loaded_models Demo.loads_number Demo.scalar [] = (Ret (PList []), [Demo.ps_json]).
Proof. reflexivity. Qed.

Lemma get_loaded_models_fallback_single_witness :
  (1 <> 0 \/ "" = "")%Z
  /\ (fst (get_loaded_models Demo.loads Demo.plain []) = Ret (PList [])
      \/ exists token,
          fst (get_loaded_models Demo.loads Demo.plain [])
          = Ret (PList [PDict [("identifier", PStr token)]])
          /\ is_word token = true).
Proof.
  assert (H : (1 <> 0 \/ "" = "")%Z) by (right; reflexivity).
  split; [ exact H | ].
  exact (get_loaded_models_fallback_single Demo.loads Demo.plain []
           {| returncode := 1; stdout := ""; stderr := "" |} eq_refl H).
Defined.

(** The tool knows of no server, the probe finds one on port 1234. *)
Lemma get_server_status_fallback_witness :
  (1 <> 0 \/ "" = "")%Z
  /\ get_server_status Demo.loads Demo.probed []
     = (Ret running_1234, [status_query; health_probe]).
Proof.
  assert (H : (1 <> 0 \/ "" = "")%Z) by (right; reflexivity).
  split; [ exact H | ].
  exact (get_server_status_fallback Demo.loads Demo.probed []
           {| returncode := 1; stdout := ""; stderr := "" |} eq_refl H).
Defined.

(** Without the [lms] executable the server that listens is not seen. *)
Lemma get_server_status_no_probe_witness :
  http_get Demo.absent 1 "http://localhost:1234/v1/models"
  = Reply {| status_code := 200; text := "{}" |}
  /\ get_server_status Demo.loads Demo.absent [] = (Ret not_running, [status_query]).
Proof.
  split; [ reflexivity | ].
  apply (get_server_status_no_probe Demo.loads Demo.absent []).
  left. eexists. reflexivity.
Defined.

Lemma ensure_model_loaded_not_listed_witness :
  get_loaded_models Demo.loads Demo.loadable [] = (Ret (PList (map PDict [])), [Demo.ps_json])
  /\ exists rest,
      ensure_model_loaded Demo.loads Demo.loadable Demo.llama []
      = (Ret true, ([Demo.ps_json] ++ load_command Demo.llama :: rest)%list).
Proof.
  assert (G : get_loaded_models Demo.loads Demo.loadable []
              = (Ret (PList (map PDict [])), [Demo.ps_json])) by (vm_compute; reflexivity).
  split; [ exact G | ].
  exact (ensure_model_loaded_not_listed Demo.loads Demo.loadable Demo.llama
           [] [Demo.ps_json] [] G (Forall_nil _)).
Defined.

Lemma ensure_model_loaded_success_silent_witness :
  fst (ensure_model_loaded Demo.loads Demo.loadable Demo.llama []) = Ret true
  /\ exists listing,
      Forall listing_query listing
      /\ (snd (ensure_model_loaded Demo.loads Demo.loadable Demo.llama [])
          = ([] ++ listing)%list
          \/ snd (ensure_model_loaded Demo.loads Demo.loadable Demo.llama [])
             = ([] ++ listing ++ [load_command Demo.llama])%list).
Proof.
  assert (H : fst (ensure_model_loaded Demo.loads Demo.loadable Demo.llama []) = Ret true)
    by (vm_compute; reflexivity).
  split; [ exact H | ].
  exact (ensure_model_loaded_success_silent Demo.loads Demo.loadable Demo.llama [] H).
Defined.

Lemma send_prompt_given_model_witness :
  "m" <> ""
  /\ PyStr.fits 8080 = true
  /\ exists v,
      send_prompt Demo.loads Demo.ready "Hello" (Some "m") 8080 []
      = (Ret v,
         ([] ++ [Post ("http://localhost:" ++ PyStr.of_int 8080 ++ "/v1/chat/completions")
                      (build_payload (PStr "m") "Hello") None (Some 60%Z)])%list).
Proof.
  assert (H : "m" <> "") by discriminate.
  assert (F : PyStr.fits 8080 = true) by (vm_compute; reflexivity).
  split; [ exact H | split; [ exact F | ] ].
  exact (send_prompt_given_model Demo.loads Demo.ready "Hello" "m" 8080 [] H F).
Defined.

Lemma send_prompt_failure_messages_witness :
  fst (send_prompt Demo.loads Demo.refused "Hello" (Some "m") 1234 [])
  = Ret (PStr connection_error).
Proof.
  refine (send_prompt_failure_messages Demo.loads Demo.refused "Hello" "m" 1234 [] _ _).
  - discriminate.
  - intros r H. discriminate H.
Defined.

Lemma message_content_shape_witness :
  message_content
    (PDict [("choices", PList [PDict [("message", PDict [("content", PStr "Hi")])]])])
  = Reply (PStr "Hi").
Proof.
  apply (proj2 (message_content_shape _ _)).
  exists [("choices", PList [PDict [("message", PDict [("content", PStr "Hi")])]])],
         [("message", PDict [("content", PStr "Hi")])], [], [("content", PStr "Hi")].
  repeat split.
Defined.

Lemma send_prompt_success_witness :
  fst (send_prompt Demo.loads Demo.ready "Hello" (Some "m") 1234 [])
  = Ret (PStr "Hello! How can I help you?").
Proof.
  refine (send_prompt_success Demo.loads Demo.ready "Hello" "m" 1234 []
            {| status_code := 200; text := Demo.answer |}
            (PDict [("choices",
                     PList [PDict [("message",
                                    PDict [("content", PStr "Hello! How can I help you?")])]])])
            _ _ eq_refl eq_refl eq_refl eq_refl).
  discriminate.
Defined.

(** The record has a name only: the name is what is posted as model. *)
Lemma send_prompt_default_model_name_witness :
  snd (send_prompt Demo.loads_named Demo.named "Hello" None 1234 [])
  = [Demo.ps_json;
     Post "http://localhost:1234/v1/chat/completions"
          (build_payload (PStr "Llama 3.2 1B") "Hello") None (Some 60%Z)].
Proof.
  exact (send_prompt_default_model_name Demo.loads_named Demo.named "Hello" None 1234
           [] [Demo.ps_json] [("name", PStr "Llama 3.2 1B")] []
           eq_refl eq_refl eq_refl).
Defined.

Lemma final_prompt_alone_witness :
  final_prompt (Some "Hello") Args.prepend (Some "") = Some "Hello"
  /\ final_prompt None Args.append (Some "piped") = Some "piped".
Proof.
  split.
  - exact (proj1 (final_prompt_alone (Some "Hello") (Some "") Args.prepend) eq_refl).
  - exact (proj2 (final_prompt_alone None (Some "piped") Args.append) eq_refl eq_refl).
Defined.

Lemma main_no_input_prints_help_witness :
  main Demo.loads Demo.refused Demo.args_none [] = (Ret tt, [PrintHelp]).
Proof.
  exact (main_no_input_prints_help Demo.loads Demo.refused Demo.args_none []
           eq_refl eq_refl eq_refl (or_introl eq_refl)).
Defined.

Lemma main_server_down_exits_witness :
  main Demo.loads Demo.down Demo.args []
  = (Exit 1, [status_query; health_probe; Print true [Lit server_down_message]]).
Proof.
  exact (main_server_down_exits Demo.loads Demo.down Demo.args
           [] [status_query; health_probe] not_running (PBool false)
           eq_refl eq_refl eq_refl eq_refl eq_refl eq_refl).
Defined.

Lemma main_load_failure_exits_witness :
  exists t2,
    ensure_model_loaded Demo.loads Demo.unloaded "not-a-real-model" [status_query]
    = (Ret false, t2)
    /\ main Demo.loads Demo.unloaded Demo.args_model []
       = (Exit 1,
          (t2 ++ [Print true [Lit "Error: Failed to load model 'not-a-real-model'"]])%list).
Proof.
  eexists. split; [ vm_compute; reflexivity | ].
  refine (main_load_failure_exits Demo.loads Demo.unloaded Demo.args_model "not-a-real-model"
            [] [status_query] _
            (PDict [("running", PBool true); ("port", PInt 1234)]) (PBool true)
            eq_refl eq_refl eq_refl eq_refl _ eq_refl eq_refl eq_refl _).
  - discriminate.
  - vm_compute. reflexivity.
Defined.

(** The server refuses the connection: with no model given, and with the
    loaded model given, the error string goes to standard output and
    [main] returns. *)
Lemma main_prints_result_witness :
  main Demo.loads Demo.refused Demo.args []
  = (Ret tt,
     [status_query; Demo.ps_json;
      Post "http://localhost:1234/v1/chat/completions"
           (build_payload (PStr Demo.llama) "Summarize this:") None (Some 60%Z);
      Print false [Fmt (PStr connection_error)]])
  /\ main Demo.loads Demo.refused Demo.args_llama []
     = (Ret tt,
        [status_query; Demo.ps_json;
         Post "http://localhost:1234/v1/chat/completions"
              (build_payload (PStr Demo.llama) "Hello") None (Some 60%Z);
         Print false [Fmt (PStr connection_error)]]).
Proof.
  split.
  - refine (main_prints_result Demo.loads Demo.refused Demo.args
              [] [status_query] [status_query]
              [status_query; Demo.ps_json;
               Post "http://localhost:1234/v1/chat/completions"
                    (build_payload (PStr Demo.llama) "Summarize this:") None (Some 60%Z)]
              (PDict [("running", PBool true); ("port", PInt 1234)]) (PBool true)
              (PStr connection_error)
              eq_refl eq_refl eq_refl eq_refl eq_refl eq_refl
              (or_introl (conj eq_refl eq_refl)) _).
    vm_compute. reflexivity.
  - refine (main_prints_result Demo.loads Demo.refused Demo.args_llama
              [] [status_query] [status_query; Demo.ps_json]
              [status_query; Demo.ps_json;
               Post "http://localhost:1234/v1/chat/completions"
                    (build_payload (PStr Demo.llama) "Hello") None (Some 60%Z)]
              (PDict [("running", PBool true); ("port", PInt 1234)]) (PBool true)
              (PStr connection_error)
              eq_refl eq_refl eq_refl eq_refl eq_refl eq_refl
              (or_intror (conj eq_refl _)) _);
      vm_compute; reflexivity.
Defined.

Lemma main_list_models_only_witness :
  Args.list_models Demo.args_list = true
  /\ emits lists_models (main Demo.loads Demo.ready Demo.args_list).
Proof.
  split; [ reflexivity | ].
  exact (main_list_models_only Demo.loads Demo.ready Demo.args_list eq_refl).
Defined.
